(** * TV show tracker: the request handlers and their instrumentation

    A shallow embedding of [src/infra/api.py] (the four Flask handlers)
    and [src/utils/decorator.py] (the call logger, the metrics tracker and
    the CloudWatch emitter), with the properties of the service stated
    over it.

    Python values are embedded as the type [json]; effects (the DynamoDB
    table, the clock, [flask.g], the CloudWatch client, the loggers) are
    threaded through a small monad with state, exceptions, an event trace
    and divergence. *)

From Stdlib Require Import ZArith Ascii String List Bool Lia DecimalString.
From stdpp Require Import gmap strings list.

Set Warnings "-register-all".

Local Open Scope string_scope.
Local Open Scope Z_scope.
Local Open Scope list_scope.

(** ** Python values *)

(** A Python float: a finite binary value [m * 2^e], an infinity or NaN. *)
Inductive pyfloat :=
| FFinite (m e : Z)
| FInf (negative : bool)
| FNan.

(** The values that travel through the handlers: what [request.get_json()]
    yields, what the table stores, what [jsonify] is given. [JNull] is
    Python's [None]. *)
Inductive json :=
| JNull
| JBool (b : bool)
| JInt (z : Z)
| JFloat (f : pyfloat)
| JStr (s : string)
| JArr (l : list json)
| JObj (l : list (string * json)).

(** An instance of Python's [Exception]: the name of its type, the names of
    the other classes it is an instance of, and [str(e)]. *)
Record exn := Exn { exn_name : string; exn_bases : list string; exn_str : string }.

Definition isinstance (e : exn) (cls : string) : bool :=
  String.eqb (exn_name e) cls || existsb (String.eqb cls) (exn_bases e).

Definition ValueError (msg : string) : exn := Exn "ValueError" [] msg.
Definition TypeError (msg : string) : exn := Exn "TypeError" [] msg.
Definition OverflowError (msg : string) : exn := Exn "OverflowError" ["ArithmeticError"] msg.
Definition KeyError (key : string) : exn := Exn "KeyError" ["LookupError"] key.
Definition IndexError (msg : string) : exn := Exn "IndexError" ["LookupError"] msg.
Definition AttributeError (msg : string) : exn := Exn "AttributeError" [] msg.
Definition ImportError (msg : string) : exn := Exn "ImportError" [] msg.

(** What evaluating an expression or a call gives: a value, or a raised
    exception. *)
Inductive outcome (A : Type) :=
| Returned (a : A)
| Raised (e : exn).
Arguments Returned {A} a.
Arguments Raised {A} e.

Definition obind {A B} (o : outcome A) (k : A -> outcome B) : outcome B :=
  match o with
  | Returned a => k a
  | Raised e => Raised e
  end.

(** Truth value testing ([not x], [all([...])]). *)
Definition truthy (v : json) : bool :=
  match v with
  | JNull => false
  | JBool b => b
  | JInt z => negb (Z.eqb z 0)
  | JFloat (FFinite m _) => negb (Z.eqb m 0)
  | JFloat _ => true
  | JStr s => negb (String.eqb s "")
  | JArr l => match l with [] => false | _ => true end
  | JObj l => match l with [] => false | _ => true end
  end.

(** ** The built-in [int()] *)

Definition is_space (c : ascii) : bool :=
  let n := nat_of_ascii c in
  (n =? 32)%nat || ((9 <=? n)%nat && (n <=? 13)%nat) || ((28 <=? n)%nat && (n <=? 31)%nat).

Definition digit_of (c : ascii) : option Z :=
  let n := nat_of_ascii c in
  if ((48 <=? n)%nat && (n <=? 57)%nat)%bool then Some (Z.of_nat n - 48) else None.

Fixpoint lstrip (l : list ascii) : list ascii :=
  match l with
  | c :: r => if is_space c then lstrip r else l
  | [] => []
  end.

Definition strip (l : list ascii) : list ascii := rev (lstrip (rev (lstrip l))).

(** Decimal digits, single underscores allowed between two digits. *)
Fixpoint int_digits (acc : Z) (after_digit : bool) (l : list ascii) : option Z :=
  match l with
  | [] => if after_digit then Some acc else None
  | c :: r =>
      match digit_of c with
      | Some d => int_digits (10 * acc + d) true r
      | None =>
          if (Ascii.eqb c "_" && after_digit)%bool then
            match r with
            | [] => None
            | _ => int_digits acc false r
            end
          else None
      end
  end.

(** [int(s)] for a [str]: surrounding whitespace, an optional sign, digits. *)
Definition int_of_str (s : string) : option Z :=
  match strip (list_ascii_of_string s) with
  | "-"%char :: r => option_map Z.opp (int_digits 0 false r)
  | "+"%char :: r => int_digits 0 false r
  | l => int_digits 0 false l
  end.

(** [int(f)] for a [float]: truncation towards zero. *)
Definition int_of_float (f : pyfloat) : outcome Z :=
  match f with
  | FFinite m e => Returned (if Z.leb 0 e then m * 2 ^ e else Z.quot m (2 ^ (- e)))
  | FInf _ => Raised (OverflowError "cannot convert float infinity to integer")
  | FNan => Raised (ValueError "cannot convert float NaN to integer")
  end.

Definition py_int (v : json) : outcome Z :=
  match v with
  | JInt z => Returned z
  | JBool b => Returned (if b then 1 else 0)
  | JFloat f => int_of_float f
  | JStr s =>
      match int_of_str s with
      | Some z => Returned z
      | None => Raised (ValueError "invalid literal for int() with base 10")
      end
  | JNull | JArr _ | JObj _ =>
      Raised (TypeError "int() argument must be a string, a bytes-like object or a real number")
  end.

(** The double nearest to 3.7 is [8331659310635418 * 2^-51]. *)
Definition float_3_7 : pyfloat := FFinite 8331659310635418 (-51).


(** ** Observable events *)

Inductive level := DEBUG | INFO | WARNING | ERROR.

(** A value attached to a log record: a Python value, or an elapsed time
    [d] (a difference of two clock readings) shown in milliseconds. *)
Inductive field :=
| FVal (v : json)
| FMillis (d : Z).

(** The value of a CloudWatch dimension: a string, or [str(v)]. *)
Inductive dimval :=
| DText (s : string)
| DStrOf (v : json).

Inductive mvalue :=
| MCount (n : Z)
| MMillis (d : Z).

Record metric_datum := Datum {
  MetricName : string;
  Dimensions : list (string * dimval);
  Value : mvalue;
  Unit : string;
  Timestamp : Z
}.

(** What a request leaves behind outside the table: log records, and calls
    of [cloudwatch.put_metric_data]. *)
Inductive event :=
| Log (lvl : level) (msg : string) (extra : list (string * field))
| PutMetricData (Namespace : string) (MetricData : list metric_datum).

(** ** The monad of the handlers

    A computation runs from a state, appends events, and either returns,
    raises or never finishes ([None]). *)

Definition M (S A : Type) : Type := S -> option (outcome A * S * list event).

Definition ret {S A} (a : A) : M S A := fun s => Some (Returned a, s, []).

Definition raise {S A} (e : exn) : M S A := fun s => Some (Raised e, s, []).

Definition bind {S A B} (m : M S A) (k : A -> M S B) : M S B :=
  fun s =>
    match m s with
    | None => None
    | Some (Raised e, s1, tr1) => Some (Raised e, s1, tr1)
    | Some (Returned a, s1, tr1) =>
        match k a s1 with
        | None => None
        | Some (o, s2, tr2) => Some (o, s2, tr1 ++ tr2)
        end
    end.

(** [try: m  except Exception as e: h e] *)
Definition try_except {S A} (m : M S A) (h : exn -> M S A) : M S A :=
  fun s =>
    match m s with
    | None => None
    | Some (Returned a, s1, tr1) => Some (Returned a, s1, tr1)
    | Some (Raised e, s1, tr1) =>
        match h e s1 with
        | None => None
        | Some (o, s2, tr2) => Some (o, s2, tr1 ++ tr2)
        end
    end.

Definition emit {S} (ev : event) : M S unit := fun s => Some (Returned tt, s, [ev]).

Definition gets {S A} (f : S -> A) : M S A := fun s => Some (Returned (f s), s, []).

Definition modify {S} (f : S -> S) : M S unit := fun s => Some (Returned tt, f s, []).

Definition lift_outcome {S A} (o : outcome A) : M S A := fun s => Some (o, s, []).

Definition diverge {S A} : M S A := fun _ => None.

Notation "'let*' x ':=' m 'in' k" := (bind m (fun x => k))
  (at level 10, x pattern, m at level 100, k at level 200).

Notation "m '>>' k" := (bind m (fun _ => k))
  (at level 90, right associativity).

Definition result_of {S A} (r : option (outcome A * S * list event)) : option (outcome A) :=
  option_map (fun x => fst (fst x)) r.

Definition trace_of {S A} (r : option (outcome A * S * list event)) : list event :=
  match r with Some (_, _, tr) => tr | None => [] end.

(** ** The collaborators: table, clock, request *)

(** A table item is a Python [dict] from attribute names to values. *)
Abbreviation item := (gmap string json).

(** One response of [table.scan]. *)
Record page := Page { Items : list item; LastEvaluatedKey : option json }.

(** The four calls made on the boto3 table resource. [T] is the state of
    the store; a call returns or raises. *)
Class TableOps (T : Type) := {
  get_item : T -> json -> json -> outcome (option item);
  put_item : T -> item -> outcome T;
  query : T -> json -> outcome (list item);
  scan : T -> option json -> outcome page
}.

(** The clock behind [time.time()] and [datetime.utcnow()]: the current
    instant, and how much time passes before each of the next readings. *)
Record clock := Clock { now : Z; ticks : list N }.

Definition tick (c : clock) : clock :=
  match ticks c with
  | [] => c
  | d :: r => Clock (now c + Z.of_N d) r
  end.

(** The state the handlers of [api.py] act on. *)
Record env (T : Type) := Env { table : T; clk : clock }.
Arguments Env {T} table clk.
Arguments table {T} e.
Arguments clk {T} e.

(** [flask.request], as far as the code reads it. [req_json] is what
    calling [request.get_json()] gives. *)
Record request := Request {
  req_endpoint : option string;
  req_method : string;
  req_user_agent : option string;
  req_args : list (string * string);
  req_json : outcome json
}.

(** What a view function returns: a response object (here its JSON body),
    or a tuple. *)
Inductive retval :=
| Plain (body : json)
| Tuple (elems : list json).

Definition jsonify (d : list (string * json)) : json := JObj d.

Fixpoint assoc {A} (k : string) (l : list (string * A)) : option A :=
  match l with
  | [] => None
  | (k', v) :: r => if String.eqb k k' then Some v else assoc k r
  end.

(** [request.args.get(k)] *)
Definition args_get (req : request) (k : string) : option string := assoc k (req_args req).

Definition opt_str (o : option string) : json :=
  match o with Some s => JStr s | None => JNull end.

(** [d.get(k)]; the object holds the parsed dictionary. *)
Definition dict_get (d : json) (k : string) : outcome json :=
  match d with
  | JObj l => Returned (default JNull (assoc k l))
  | _ => Raised (AttributeError "object has no attribute 'get'")
  end.

(** [it[k]] *)
Definition getitem (it : item) (k : string) : outcome json :=
  match it !! k with
  | Some v => Returned v
  | None => Raised (KeyError k)
  end.

(** [len(l)] *)
Definition len {A} (l : list A) : json := JInt (Z.of_nat (length l)).

(** The status Flask answers with for a response object or a
    [(body, status)] tuple. *)
Definition flask_status (r : retval) : option json :=
  match r with
  | Plain _ => Some (JInt 200)
  | Tuple [_; status] => Some status
  | Tuple _ => None
  end.

(** ** The handlers of [infra/api.py] *)

Section Handlers.
Context {T : Type} {ops : TableOps T}.
Variable isoformat : Z -> string.

(** [time.time()], [datetime.utcnow()] *)
Definition clock_read : M (env T) Z :=
  fun s => let c := tick (clk s) in Some (Returned (now c), Env (table s) c, []).

Definition table_get_item (username tv_show : json) : M (env T) (option item) :=
  fun s => Some (get_item (table s) username tv_show, s, []).

Definition table_put_item (it : item) : M (env T) unit :=
  fun s =>
    match put_item (table s) it with
    | Returned t' => Some (Returned tt, Env t' (clk s), [])
    | Raised e => Some (Raised e, s, [])
    end.

Definition table_query (username : json) : M (env T) (list item) :=
  fun s => Some (query (table s) username, s, []).

Definition table_scan (start : option json) : M (env T) page :=
  fun s => Some (scan (table s) start, s, []).

(** The two [except] clauses every handler ends with. *)
Definition db_errors (where_ : string) (e : exn) : M (env T) retval :=
  if isinstance e "ClientError" then
    emit (Log ERROR "DynamoDB error" [("e", FVal (JStr (exn_str e)))]) >>
    ret (Tuple [jsonify [("error", JStr "Database error")]; JInt 500])
  else
    emit (Log ERROR ("Unexpected error in " ++ where_)%string [("e", FVal (JStr (exn_str e)))]) >>
    ret (Tuple [jsonify [("error", JStr "Internal server error")]; JInt 500]).

Definition falsy (o : option string) : bool := negb (truthy (opt_str o)).

Definition show_episode (req : request) : M (env T) retval :=
  let username := args_get req "username" in
  let tv_show := args_get req "tv_show" in
  if falsy username || falsy tv_show then
    emit (Log WARNING "Missing parameters"
            [("username", FVal (opt_str username)); ("tv_show", FVal (opt_str tv_show))]) >>
    ret (Tuple [jsonify [("error", JStr "Username and tv_show are required")]; JInt 400])
  else
    try_except
      (let* response := table_get_item (opt_str username) (opt_str tv_show) in
       match response with
       | Some it =>
           emit (Log INFO "Retrieved episode data"
                   [("username", FVal (opt_str username)); ("tv_show", FVal (opt_str tv_show))]) >>
           let* u := lift_outcome (getitem it "username") in
           let* s := lift_outcome (getitem it "tv_show") in
           let* se := lift_outcome (getitem it "season") in
           let* ep := lift_outcome (getitem it "episode") in
           ret (Plain (jsonify [("username", u); ("tv_show", s); ("season", se);
                                ("episode", ep);
                                ("last_updated", default (JStr "") (it !! "last_updated"))]))
       | None =>
           emit (Log INFO "No data found"
                   [("username", FVal (opt_str username)); ("tv_show", FVal (opt_str tv_show))]) >>
           ret (Tuple [jsonify [("message", JStr "No data found for this user and TV show")];
                       JInt 404])
       end)
      (db_errors "show_episode").

(** The dictionary built in the [for item in response['Items']] loop of
    [show_user]. *)
Definition show_of (it : item) : outcome json :=
  obind (getitem it "tv_show") (fun s =>
  obind (getitem it "season") (fun se =>
  obind (getitem it "episode") (fun ep =>
  Returned (JObj [("tv_show", s); ("season", se); ("episode", ep);
                  ("last_updated", default (JStr "") (it !! "last_updated"))])))).

(** The dictionary built in the two loops of [show_all]. *)
Definition entry_of (it : item) : outcome json :=
  obind (getitem it "username") (fun u =>
  obind (getitem it "tv_show") (fun s =>
  obind (getitem it "season") (fun se =>
  obind (getitem it "episode") (fun ep =>
  Returned (JObj [("username", u); ("tv_show", s); ("season", se); ("episode", ep);
                  ("last_updated", default (JStr "") (it !! "last_updated"))]))))).

(** [for item in items: acc.append(f(item))] *)
Fixpoint append_each (f : item -> outcome json) (acc : list json) (items : list item)
  : outcome (list json) :=
  match items with
  | [] => Returned acc
  | it :: rest =>
      match f it with
      | Raised e => Raised e
      | Returned d => append_each f (acc ++ [d]) rest
      end
  end.

Definition show_user (req : request) : M (env T) retval :=
  let username := args_get req "username" in
  if falsy username then
    emit (Log WARNING "Missing username parameter" []) >>
    ret (Tuple [jsonify [("error", JStr "Username is required")]; JInt 400])
  else
    try_except
      (let* items := table_query (opt_str username) in
       let* shows := lift_outcome (append_each show_of [] items) in
       emit (Log INFO "Retrieved shows for user"
               [("len(shows)", FVal (len shows)); ("username", FVal (opt_str username))]) >>
       ret (Plain (jsonify [("username", opt_str username); ("shows", JArr shows);
                            ("total_shows", len shows)])))
      (db_errors "show_user").

(** The [except (ValueError, TypeError)] clause of [update_episode];
    any other exception goes on. *)
Definition invalid_format (season episode : json) (e : exn) : M (env T) retval :=
  if isinstance e "ValueError" || isinstance e "TypeError" then
    emit (Log WARNING "Invalid season/episode format"
            [("season", FVal season); ("episode", FVal episode)]) >>
    ret (Tuple [jsonify [("error", JStr "Season and episode must be valid integers")];
                JInt 400])
  else raise e.

Definition episode_item (username tv_show : json) (season episode : Z) (t : Z) : item :=
  <["username" := username]> (<["tv_show" := tv_show]> (<["season" := JInt season]>
    (<["episode" := JInt episode]> (<["last_updated" := JStr (isoformat t)]> ∅)))).

Definition update_episode (req : request) : M (env T) retval :=
  let* data := lift_outcome (req_json req) in
  if negb (truthy data) then
    emit (Log WARNING "No JSON data provided" []) >>
    ret (Tuple [jsonify [("error", JStr "JSON data is required")]; JInt 400])
  else
    let* username := lift_outcome (dict_get data "username") in
    let* tv_show := lift_outcome (dict_get data "tv_show") in
    let* season := lift_outcome (dict_get data "season") in
    let* episode := lift_outcome (dict_get data "episode") in
    if negb (truthy username && truthy tv_show
             && match season with JNull => false | _ => true end
             && match episode with JNull => false | _ => true end) then
      emit (Log WARNING "Missing parameters"
              [("username", FVal username); ("tv_show", FVal tv_show);
               ("season", FVal season); ("episode", FVal episode)]) >>
      ret (Tuple [jsonify [("error", JStr "Username, tv_show, season, and episode are required")];
                  JInt 400])
    else
      match py_int season with
      | Raised e => invalid_format season episode e
      | Returned season =>
          match py_int episode with
          | Raised e => invalid_format (JInt season) episode e
          | Returned episode =>
              if (season <? 1) || (episode <? 1) then
                ret (Tuple [jsonify [("error", JStr "Season and episode must be positive integers")];
                            JInt 400])
              else
                try_except
                  (let* t := clock_read in
                   table_put_item (episode_item username tv_show season episode t) >>
                   emit (Log INFO "Updated episode data"
                           [("username", FVal username); ("tv_show", FVal tv_show);
                            ("season", FVal (JInt season)); ("episode", FVal (JInt episode))]) >>
                   ret (Tuple [jsonify [("message", JStr "Episode updated successfully");
                                        ("username", username); ("tv_show", tv_show);
                                        ("season", JInt season); ("episode", JInt episode)];
                               JInt 201]))
                  (db_errors "update_episode")
          end
      end.

(** The [while 'LastEvaluatedKey' in response] loop of [show_all]; it runs
    for as long as the store hands out markers, [fuel] bounds the number of
    iterations followed. *)
Fixpoint scan_rest (fuel : nat) (response : page) (entries : list json)
  : M (env T) (list json) :=
  match LastEvaluatedKey response with
  | None => ret entries
  | Some key =>
      match fuel with
      | O => diverge
      | S fuel' =>
          let* response' := table_scan (Some key) in
          let* entries' := lift_outcome (append_each entry_of entries (Items response')) in
          scan_rest fuel' response' entries'
      end
  end.

Definition show_all (fuel : nat) (req : request) : M (env T) retval :=
  try_except
    (let* response := table_scan None in
     let* entries := lift_outcome (append_each entry_of [] (Items response)) in
     let* entries := scan_rest fuel response entries in
     emit (Log INFO "Retrieved all entries from table" [("len(entries)", FVal (len entries))]) >>
     ret (Plain (jsonify [("entries", JArr entries); ("total_entries", len entries)])))
    (db_errors "show_all").

End Handlers.

(** ** The instrumentation of [utils/decorator.py] *)

(** The attributes the decorators keep on [flask.g]. *)
Record gctx := G {
  g_start_time : option Z;
  g_endpoint : option string;
  g_method : option string
}.

(** The state the decorators act on: that of the handlers, [flask.g], and
    the CloudWatch client, whose [put_metric_data] accepts a call ([None])
    or raises. *)
Record world (T : Type) := World {
  w_env : env T;
  g : gctx;
  cloudwatch : string -> list metric_datum -> option exn
}.
Arguments World {T} w_env g cloudwatch.
Arguments w_env {T} w.
Arguments g {T} w.
Arguments cloudwatch {T} w.

Section Decorators.
Context {T : Type} {ops : TableOps T}.
Variable isoformat : Z -> string.

(** A computation of [api.py] run inside the larger state. *)
Definition in_env {A} (m : M (env T) A) : M (world T) A :=
  fun w =>
    match m (w_env w) with
    | None => None
    | Some (o, e', tr) => Some (o, World e' (g w) (cloudwatch w), tr)
    end.

Definition put_metric_data (ns : string) (data : list metric_datum) : M (world T) unit :=
  fun w =>
    match cloudwatch w ns data with
    | None => Some (Returned tt, w, [PutMetricData ns data])
    | Some e => Some (Raised e, w, [PutMetricData ns data])
    end.

(** The [metric_data] list [send_metrics_to_cloudwatch] builds. *)
Definition metric_data_of (endpoint method : string) (status_code : json)
    (duration : Z) (success : bool) (error_type : option string) (timestamp : Z)
  : list metric_datum :=
  let dimensions :=
    [("Endpoint", DText endpoint); ("Method", DText method);
     ("StatusCode", DStrOf status_code)] ++
    (if truthy (opt_str error_type)
     then [("ErrorType", DText (default "" error_type))] else []) in
  [Datum "RequestCount" dimensions (MCount 1) "Count" timestamp;
   Datum "ResponseTime" dimensions (MMillis duration) "Milliseconds" timestamp] ++
  (if success
   then [Datum "SuccessCount" dimensions (MCount 1) "Count" timestamp]
   else [Datum "ErrorCount" dimensions (MCount 1) "Count" timestamp]).

Definition send_metrics_to_cloudwatch (endpoint method : string) (status_code : json)
    (duration : Z) (success : bool) (error_type : option string) : M (world T) unit :=
  try_except
    (let namespace := "TVShowTracker/API" in
     let* timestamp := in_env clock_read in
     let metric_data :=
       metric_data_of endpoint method status_code duration success error_type timestamp in
     put_metric_data namespace metric_data >>
     emit (Log DEBUG "Sent metrics to CloudWatch" [("endpoint", FVal (JStr endpoint))]))
    (fun e =>
       emit (Log ERROR "Failed to send metrics to CloudWatch" [("e", FVal (JStr (exn_str e)))])).

Definition track_metrics (func : M (world T) retval) : M (world T) retval :=
  try_except
    (let* result := func in
     let* fresh := in_env clock_read in
     let* ctx := gets g in
     let start_time := default fresh (g_start_time ctx) in
     let endpoint := default "unknown" (g_endpoint ctx) in
     let method := default "unknown" (g_method ctx) in
     let* t := in_env clock_read in
     let duration := t - start_time in
     let* status_code :=
       match result with
       | Tuple elems =>
           match elems !! 1%nat with
           | Some s => ret s
           | None => raise (IndexError "tuple index out of range")
           end
       | Plain _ => ret (JInt 200)
       end in
     send_metrics_to_cloudwatch endpoint method status_code duration true None >>
     ret result)
    (fun e =>
       let* fresh := in_env clock_read in
       let* ctx := gets g in
       let start_time := default fresh (g_start_time ctx) in
       let endpoint := default "unknown" (g_endpoint ctx) in
       let method := default "unknown" (g_method ctx) in
       let* t := in_env clock_read in
       let duration := t - start_time in
       send_metrics_to_cloudwatch endpoint method (JInt 500) duration false
         (Some (exn_name e)) >>
       raise e).

(** The part of [log_api_call]'s wrapper before its [try]. *)
Definition log_api_call_enter (req : request) : M (world T) (Z * string * string) :=
  let* start_time := in_env clock_read in
  let endpoint :=
    if truthy (opt_str (req_endpoint req)) then default "" (req_endpoint req)
    else "unknown" in
  let method := req_method req in
  let user_agent := default "unknown" (req_user_agent req) in
  modify (fun w => World (w_env w) (G (Some start_time) (Some endpoint) (Some method))
                     (cloudwatch w)) >>
  let* now_ := in_env clock_read in
  emit (Log INFO "API_CALL_START"
          [("endpoint", FVal (JStr endpoint)); ("method", FVal (JStr method));
           ("user_agent", FVal (JStr user_agent));
           ("timestamp", FVal (JStr (isoformat now_)))]) >>
  ret (start_time, endpoint, method).

Definition log_api_call (req : request) (func : M (world T) retval) : M (world T) retval :=
  let* entered := log_api_call_enter req in
  let '(start_time, endpoint, method) := entered in
  try_except
    (let* result := func in
     let* t := in_env clock_read in
     let duration := t - start_time in
     let* status_code :=
       match result with
       | Tuple elems =>
           match elems !! 1%nat with
           | Some s => ret s
           | None => raise (IndexError "tuple index out of range")
           end
       | Plain _ => ret (JInt 200)
       end in
     let* now_ := in_env clock_read in
     emit (Log INFO "API_CALL_SUCCESS"
             [("endpoint", FVal (JStr endpoint)); ("method", FVal (JStr method));
              ("status_code", FVal status_code); ("duration_ms", FMillis duration);
              ("timestamp", FVal (JStr (isoformat now_)))]) >>
     ret result)
    (fun e =>
       let* t := in_env clock_read in
       let duration := t - start_time in
       let* now_ := in_env clock_read in
       emit (Log ERROR "API_CALL_ERROR"
               [("endpoint", FVal (JStr endpoint)); ("method", FVal (JStr method));
                ("error", FVal (JStr (exn_str e)));
                ("error_type", FVal (JStr (exn_name e)));
                ("duration_ms", FMillis duration);
                ("timestamp", FVal (JStr (isoformat now_)))]) >>
       raise e).

(** The two stages the module defines, stacked the way [api.py] stacks
    them: the call logger outside, the metrics tracker inside. *)
Definition instrumented (req : request) (func : M (world T) retval) : M (world T) retval :=
  log_api_call req (track_metrics func).

(** The state after [n] readings of the clock. *)
Definition after_reads (n : nat) (w : world T) : world T :=
  World (Env (table (w_env w)) (Nat.iter n tick (clk (w_env w)))) (g w) (cloudwatch w).

(** The instant the [n]-th next reading of the clock shows. *)
Definition reading (n : nat) (w : world T) : Z := now (Nat.iter n tick (clk (w_env w))).

(** The log record that ends [send_metrics_to_cloudwatch]. *)
Definition emitter_log (w : world T) (endpoint : string) (data : list metric_datum) : event :=
  match cloudwatch w "TVShowTracker/API" data with
  | None => Log DEBUG "Sent metrics to CloudWatch" [("endpoint", FVal (JStr endpoint))]
  | Some e => Log ERROR "Failed to send metrics to CloudWatch" [("e", FVal (JStr (exn_str e)))]
  end.

(** What the status lines of both wrappers read off a result. *)
Definition tuple_status (r : retval) : option json :=
  match r with
  | Tuple elems => elems !! 1%nat
  | Plain _ => Some (JInt 200)
  end.

(** The name [log_api_call] files the request under. *)
Definition endpoint_name (req : request) : string :=
  if truthy (opt_str (req_endpoint req)) then default "" (req_endpoint req) else "unknown".

(** The state in which [log_api_call] calls the wrapped function, and the
    record it has logged by then. *)
Definition entered (req : request) (w : world T) : world T :=
  World (Env (table (w_env w)) (Nat.iter 2 tick (clk (w_env w))))
        (G (Some (reading 1 w)) (Some (endpoint_name req)) (Some (req_method req)))
        (cloudwatch w).

Definition start_event (req : request) (w : world T) : event :=
  Log INFO "API_CALL_START"
    [("endpoint", FVal (JStr (endpoint_name req))); ("method", FVal (JStr (req_method req)));
     ("user_agent", FVal (JStr (default "unknown" (req_user_agent req))));
     ("timestamp", FVal (JStr (isoformat (reading 2 w))))].

(** The records [log_api_call] ends with, [w] being the state it was called
    in and [w1] the state the wrapped function left, [k] readings of the
    clock before the ones shown. *)
Definition success_event (req : request) (w w1 : world T) (status_code : json) : event :=
  Log INFO "API_CALL_SUCCESS"
    [("endpoint", FVal (JStr (endpoint_name req))); ("method", FVal (JStr (req_method req)));
     ("status_code", FVal status_code);
     ("duration_ms", FMillis (reading 1 w1 - reading 1 w));
     ("timestamp", FVal (JStr (isoformat (reading 2 w1))))].

Definition error_event (req : request) (w w1 : world T) (k : nat) (e : exn) : event :=
  Log ERROR "API_CALL_ERROR"
    [("endpoint", FVal (JStr (endpoint_name req))); ("method", FVal (JStr (req_method req)));
     ("error", FVal (JStr (exn_str e)));
     ("error_type", FVal (JStr (exn_name e)));
     ("duration_ms", FMillis (reading (k + 1) w1 - reading 1 w));
     ("timestamp", FVal (JStr (isoformat (reading (k + 2) w1))))].

(** The sample [track_metrics] hands to [send_metrics_to_cloudwatch], as the
    payload put to CloudWatch, [w1] being the state the wrapped function
    left and [k] the readings of the clock before the ones shown. *)
Definition sample_data (k : nat) (w1 : world T) (status_code : json) (success : bool)
    (error_type : option string) : list metric_datum :=
  let start_time := default (reading (k + 1) w1) (g_start_time (g w1)) in
  metric_data_of (default "unknown" (g_endpoint (g w1))) (default "unknown" (g_method (g w1)))
    status_code (reading (k + 2) w1 - start_time) success error_type (reading (k + 3) w1).

(** The same state with another CloudWatch client. *)
Definition with_sink (cw : string -> list metric_datum -> option exn) (w : world T)
  : world T :=
  World (w_env w) (g w) cw.

(** The four views of [api.py]. *)
Definition views (fuel : nat) (req : request) : list (M (env T) retval) :=
  [show_episode req; show_user req; update_episode isoformat req; show_all fuel req].

(** The events [track_metrics] adds after the wrapped function. *)
Definition tracked (k : nat) (w1 : world T) (status_code : json) (success : bool)
    (error_type : option string) : list event :=
  let data := sample_data k w1 status_code success error_type in
  [PutMetricData "TVShowTracker/API" data;
   emitter_log w1 (default "unknown" (g_endpoint (g w1))) data].

End Decorators.

(** The rule of the specification for the status of a result: the second
    component of a (payload, status) pair, the default 200 for a result that
    is not a tuple. *)
Definition status_rule (r : retval) : option json :=
  match r with
  | Tuple [_; status] => Some status
  | Tuple _ => None
  | Plain _ => Some (JInt 200)
  end.

(** ** Loading [infra/api.py] *)

(** The names bound by the top level of [utils/decorator.py], in the order
    of its statements. *)
Definition decorator_module : list string :=
  ["functools"; "time"; "logging"; "boto3"; "request"; "g"; "datetime"; "logger";
   "cloudwatch"; "BATCH_INTERVAL"; "log_api_call"; "track_metrics";
   "send_metrics_to_cloudwatch"; "log_database_operation"].

(** [from module import n1, n2, ...]: the names bound, or [ImportError] at
    the first one the module does not define. *)
Fixpoint import_from (module : list string) (names : list string) : outcome (list string) :=
  match names with
  | [] => Returned []
  | n :: rest =>
      if existsb (String.eqb n) module then
        obind (import_from module rest) (fun bound => Returned (n :: bound))
      else Raised (ImportError ("cannot import name " ++ n)%string)
  end.

(** Line 4 of [api.py]. *)
Definition api_imports : list string :=
  ["log_api_call"; "track_metrics"; "send_http_metrics"].

(** The decorators written between the route and each view, outermost first. *)
Definition view_decorators : list (string * list string) :=
  [("show_episode", ["log_api_call"; "track_metrics"; "send_http_metrics"]);
   ("show_user", ["log_api_call"; "track_metrics"; "send_http_metrics"]);
   ("update_episode", ["log_api_call"; "track_metrics"; "send_http_metrics"]);
   ("show_all", ["log_api_call"; "track_metrics"; "send_http_metrics"])].

(** The two stages of the instrumentation chain, outermost first. *)
Definition instrumentation_chain : list string := ["log_api_call"; "track_metrics"].

(** Executing [api.py]: the import, then the four decorated definitions; the
    views registered, or the exception that stops the module. *)
Definition load_api : outcome (list string) :=
  obind (import_from decorator_module api_imports) (fun bound =>
    if forallb (fun v => forallb (fun d => existsb (String.eqb d) bound) (snd v)) view_decorators
    then Returned (map fst view_decorators)
    else Raised (Exn "NameError" [] "name is not defined")).

(** ** A store to run the handlers on *)

(** Rows keyed by (username, tv_show); a scan hands out [page_limit + 1]
    rows at a time, the marker being the number of rows already returned. *)
Record mem_table := MemTable {
  rows : gmap (string * string) item;
  page_limit : nat
}.

Definition ClientError (msg : string) : exn := Exn "ClientError" [] msg.

Definition mem_get_item (t : mem_table) (username tv_show : json) : outcome (option item) :=
  match username, tv_show with
  | JStr u, JStr s => Returned (rows t !! (u, s))
  | _, _ => Raised (ClientError "ValidationException")
  end.

Definition mem_put_item (t : mem_table) (it : item) : outcome mem_table :=
  match it !! "username", it !! "tv_show" with
  | Some (JStr u), Some (JStr s) =>
      if String.eqb u "" || String.eqb s "" then Raised (ClientError "ValidationException")
      else Returned (MemTable (<[(u, s) := it]> (rows t)) (page_limit t))
  | _, _ => Raised (ClientError "ValidationException")
  end.

Definition mem_query (t : mem_table) (username : json) : outcome (list item) :=
  match username with
  | JStr u =>
      Returned (map snd (List.filter (fun kv => String.eqb (fst (fst kv)) u)
                           (map_to_list (rows t))))
  | _ => Raised (ClientError "ValidationException")
  end.

Definition mem_scan (t : mem_table) (start : option json) : outcome page :=
  let all := map snd (map_to_list (rows t)) in
  let page_from (done_ : nat) :=
    let next := (done_ + S (page_limit t))%nat in
    Page (take (S (page_limit t)) (drop done_ all))
         (if (next <? length all)%nat then Some (JInt (Z.of_nat next)) else None) in
  match start with
  | None => Returned (page_from 0%nat)
  | Some (JInt n) => Returned (page_from (Z.to_nat n))
  | Some _ => Raised (ClientError "ValidationException")
  end.

#[export] Instance mem_table_ops : TableOps mem_table := {
  get_item := mem_get_item;
  put_item := mem_put_item;
  query := mem_query;
  scan := mem_scan
}.

(** A rendering of instants to run the model with: the decimal numeral. *)
Definition stamp (t : Z) : string := NilZero.string_of_int (Z.to_int t).

(** ** What the store is relied on for *)

(** Item-level put and get: a put of an item whose key attributes are
    non-empty strings is accepted, and a get of that key then returns the
    item. *)
Record store_laws {T : Type} {ops : TableOps T} : Prop := {
  put_accepted : forall (t : T) (it : item) (u s : string),
    it !! "username" = Some (JStr u) -> it !! "tv_show" = Some (JStr s) ->
    u <> "" -> s <> "" -> exists t', put_item t it = Returned t';
  get_after_put : forall (t t' : T) (it : item) (u s : string),
    it !! "username" = Some (JStr u) -> it !! "tv_show" = Some (JStr s) ->
    put_item t it = Returned t' -> get_item t' (JStr u) (JStr s) = Returned (Some it)
}.
Arguments store_laws T {ops}.

(** The pages a scan of [t] hands out from the marker [start] on, each
    linked to the next by its [LastEvaluatedKey], the last one without. *)
Inductive page_chain {T : Type} {ops : TableOps T} (t : T) : option json -> list page -> Prop :=
| chain_last (start : option json) (p : page) :
    scan t start = Returned p -> LastEvaluatedKey p = None ->
    page_chain t start [p]
| chain_more (start : option json) (p : page) (key : json) (ps : list page) :
    scan t start = Returned p -> LastEvaluatedKey p = Some key ->
    page_chain t (Some key) ps ->
    page_chain t start (p :: ps).

(** ** Sample data *)

(** The rows [add_sample_data] of [dynamodb_setup.py] puts in the table. *)
Definition sample_item (username tv_show : string) (season episode : Z) (last_updated : string)
  : item :=
  <["username" := JStr username]> (<["tv_show" := JStr tv_show]> (<["season" := JInt season]>
    (<["episode" := JInt episode]> (<["last_updated" := JStr last_updated]> ∅)))).

Definition breaking_bad : item := sample_item "john_doe" "Breaking Bad" 3 7 "2024-01-15T10:30:00Z".
Definition the_office : item := sample_item "john_doe" "The Office" 5 12 "2024-01-14T20:15:00Z".
Definition stranger_things : item :=
  sample_item "jane_smith" "Stranger Things" 4 3 "2024-01-16T14:45:00Z".

(** The sample rows in a store that scans one row a page. *)
Definition sample_table : mem_table :=
  MemTable (<[("john_doe", "Breaking Bad") := breaking_bad]>
           (<[("john_doe", "The Office") := the_office]>
           (<[("jane_smith", "Stranger Things") := stranger_things]> ∅))) 0.

Definition sample_env : env mem_table := Env sample_table (Clock 1000 [3; 1; 4; 1; 5; 9; 2; 6]%N).

Definition empty_env : env mem_table := Env (MemTable ∅ 0) (Clock 1000 [3; 1; 4; 1; 5; 9; 2; 6]%N).

(** A CloudWatch client that cannot reach its endpoint. *)
Definition unreachable_sink (ns : string) (data : list metric_datum) : option exn :=
  Some (Exn "EndpointConnectionError" ["BotoCoreError"] "Could not connect to the endpoint URL").

Definition sample_world : world mem_table := World sample_env (G None None None) (fun _ _ => None).

Definition post_update (body : json) : request :=
  Request (Some "api.update_episode") "POST" (Some "python-requests/2.31.0") [] (Returned body).

Definition get_view (endpoint : string) (args : list (string * string)) : request :=
  Request (Some endpoint) "GET" (Some "python-requests/2.31.0") args (Returned JNull).

Definition update_body (username tv_show season episode : json) : json :=
  JObj [("username", username); ("tv_show", tv_show); ("season", season); ("episode", episode)].

(** ** [log_database_operation] of [utils/decorator.py] *)

Section DatabaseDecorator.
Context {T : Type}.
Variable isoformat : Z -> string.

(** The wrapper [log_database_operation(operation_type)] puts around
    [func]; [func_name] is [func.__name__]. *)
Definition log_database_operation {A} (operation_type func_name : string)
    (func : M (world T) A) : M (world T) A :=
  let* start_time := in_env clock_read in
  let* now_ := in_env clock_read in
  emit (Log INFO "DB_OPERATION_START"
          [("operation_type", FVal (JStr operation_type));
           ("function", FVal (JStr func_name));
           ("timestamp", FVal (JStr (isoformat now_)))]) >>
  try_except
    (let* result := func in
     let* t := in_env clock_read in
     let duration := t - start_time in
     let* now_ := in_env clock_read in
     emit (Log INFO "DB_OPERATION_SUCCESS"
             [("operation_type", FVal (JStr operation_type));
              ("function", FVal (JStr func_name));
              ("duration_ms", FMillis duration);
              ("timestamp", FVal (JStr (isoformat now_)))]) >>
     ret result)
    (fun e =>
       let* t := in_env clock_read in
       let duration := t - start_time in
       let* now_ := in_env clock_read in
       emit (Log ERROR "DB_OPERATION_ERROR"
               [("operation_type", FVal (JStr operation_type));
                ("function", FVal (JStr func_name));
                ("error", FVal (JStr (exn_str e)));
                ("error_type", FVal (JStr (exn_name e)));
                ("duration_ms", FMillis duration);
                ("timestamp", FVal (JStr (isoformat now_)))]) >>
       raise e).

(** The record it opens with, in the state [w] it is called in. *)
Definition db_start_event (operation_type func_name : string) (w : world T) : event :=
  Log INFO "DB_OPERATION_START"
    [("operation_type", FVal (JStr operation_type));
     ("function", FVal (JStr func_name));
     ("timestamp", FVal (JStr (isoformat (reading 2 w))))].

(** The record it closes with, [w1] being the state [func] left and [o] what
    [func] gave. *)
Definition db_end_event {A} (operation_type func_name : string) (w w1 : world T)
    (o : outcome A) : event :=
  match o with
  | Returned _ =>
      Log INFO "DB_OPERATION_SUCCESS"
        [("operation_type", FVal (JStr operation_type));
         ("function", FVal (JStr func_name));
         ("duration_ms", FMillis (reading 1 w1 - reading 1 w));
         ("timestamp", FVal (JStr (isoformat (reading 2 w1))))]
  | Raised e =>
      Log ERROR "DB_OPERATION_ERROR"
        [("operation_type", FVal (JStr operation_type));
         ("function", FVal (JStr func_name));
         ("error", FVal (JStr (exn_str e)));
         ("error_type", FVal (JStr (exn_name e)));
         ("duration_ms", FMillis (reading 1 w1 - reading 1 w));
         ("timestamp", FVal (JStr (isoformat (reading 2 w1))))]
  end.

End DatabaseDecorator.

(** ** [add_sample_data] of [dynamodb_setup.py] *)

(** A line the script prints. *)
Inductive line :=
| AddedSampleData (username tv_show : json)
| SampleDataAdded
| ErrorAddingSampleData (e : exn)
| UnexpectedError (e : exn).

(** The table and the lines printed so far. *)
Record console (T : Type) := Console { c_table : T; c_out : list line }.
Arguments Console {T} c_table c_out.
Arguments c_table {T} c.
Arguments c_out {T} c.

Section Setup.
Context {T : Type} {ops : TableOps T}.

Definition print (l : line) : M (console T) unit :=
  modify (fun c => Console (c_table c) (c_out c ++ [l])).

Definition console_put_item (it : item) : M (console T) unit :=
  fun c =>
    match put_item (c_table c) it with
    | Returned t' => Some (Returned tt, Console t' (c_out c), [])
    | Raised e => Some (Raised e, c, [])
    end.

(** [for item in sample_data: table.put_item(Item=item); print(...)] *)
Fixpoint put_each (items : list item) : M (console T) unit :=
  match items with
  | [] => ret tt
  | it :: rest =>
      console_put_item it >>
      let* username := lift_outcome (getitem it "username") in
      let* tv_show := lift_outcome (getitem it "tv_show") in
      print (AddedSampleData username tv_show) >>
      put_each rest
  end.

(** The line printed for an item put. *)
Definition added_line (it : item) : line :=
  AddedSampleData (default JNull (it !! "username")) (default JNull (it !! "tv_show")).

(** The list [sample_data] of the script. *)
Definition setup_sample_data : list item := [breaking_bad; the_office; stranger_things].

Definition add_sample_data : M (console T) unit :=
  try_except
    (put_each setup_sample_data >> print SampleDataAdded)
    (fun e =>
       if isinstance e "ClientError" then print (ErrorAddingSampleData e)
       else print (UnexpectedError e)).

(** The puts of a list of items, one after the other, all accepted. *)
Inductive puts : T -> list item -> T -> Prop :=
| puts_nil (t : T) : puts t [] t
| puts_cons (t t' t'' : T) (it : item) (rest : list item) :
    put_item t it = Returned t' -> puts t' rest t'' -> puts t (it :: rest) t''.

End Setup.

(** ** A store whose scan never ends *)

(** Every scan of this store answers an empty page with a marker. *)
#[export] Instance endless_scan_ops : TableOps unit := {
  get_item := fun _ _ _ => Returned None;
  put_item := fun _ _ => Returned tt;
  query := fun _ _ => Returned [];
  scan := fun _ _ => Returned (Page [] (Some (JInt 0)))
}.

(** The response bodies of the closing [except] clauses of the views. *)
Definition database_error_body : json := jsonify [("error", JStr "Database error")].
Definition internal_error_body : json := jsonify [("error", JStr "Internal server error")].

(** A row that has no season, and a table with it. *)
Definition patchy_row : item :=
  <["username" := JStr "jane_smith"]> (<["tv_show" := JStr "Dark"]>
    (<["episode" := JInt 2]> ∅)).

Definition patchy_table : mem_table :=
  MemTable (<[("jane_smith", "Dark") := patchy_row]> (rows sample_table)) 0.

Definition patchy_env : env mem_table := Env patchy_table (Clock 1000 [3; 1; 4]%N).

(** A store of the endless kind, and the clock. *)
Definition endless_env : env unit := Env tt (Clock 1000 [3; 1; 4]%N).

(** * Properties *)

(** ** [int()] at some values *)

Example py_int_str : py_int (JStr " +1_0 ") = Returned 10.
Proof. reflexivity. Qed.

Example py_int_word :
  py_int (JStr "abc") = Raised (ValueError "invalid literal for int() with base 10").
Proof. reflexivity. Qed.

Example py_int_trailing_underscore : int_of_str "1_" = None.
Proof. reflexivity. Qed.

Example py_int_fraction : py_int (JFloat float_3_7) = Returned 3.
Proof. reflexivity. Qed.

(** ** The monad *)

Lemma bind_returned {S A B} (m : M S A) (k : A -> M S B) s a s1 tr1 :
  m s = Some (Returned a, s1, tr1) ->
  bind m k s = match k a s1 with
               | None => None
               | Some (o, s2, tr2) => Some (o, s2, tr1 ++ tr2)
               end.
Proof. intros E. unfold bind. now rewrite E. Qed.

Lemma bind_raised {S A B} (m : M S A) (k : A -> M S B) s e s1 tr1 :
  m s = Some (Raised e, s1, tr1) -> bind m k s = Some (Raised e, s1, tr1).
Proof. intros E. unfold bind. now rewrite E. Qed.

Lemma bind_diverges {S A B} (m : M S A) (k : A -> M S B) s :
  m s = None -> bind m k s = None.
Proof. intros E. unfold bind. now rewrite E. Qed.

Lemma try_except_returned {S A} (m : M S A) (h : exn -> M S A) s a s1 tr1 :
  m s = Some (Returned a, s1, tr1) -> try_except m h s = Some (Returned a, s1, tr1).
Proof. intros E. unfold try_except. now rewrite E. Qed.

Lemma try_except_raised {S A} (m : M S A) (h : exn -> M S A) s e s1 tr1 :
  m s = Some (Raised e, s1, tr1) ->
  try_except m h s = match h e s1 with
                     | None => None
                     | Some (o, s2, tr2) => Some (o, s2, tr1 ++ tr2)
                     end.
Proof. intros E. unfold try_except. now rewrite E. Qed.

Lemma rewrap {S A} (x : option (outcome A * S * list event)) :
  match x with
  | Some (o, s2, tr2) => Some (o, s2, tr2)
  | None => None
  end = x.
Proof. now destruct x as [[[o s2] tr2] |]. Qed.

(** ** The decorators, run *)

Section DecoratorRuns.
Context {T : Type} {ops : TableOps T}.
Variable isoformat : Z -> string.

Lemma send_metrics_run endpoint method status_code duration success error_type
    (w : world T) :
  let data := metric_data_of endpoint method status_code duration success error_type
                (reading 1 w) in
  send_metrics_to_cloudwatch endpoint method status_code duration success error_type w
  = Some (Returned tt, after_reads 1 w,
          [PutMetricData "TVShowTracker/API" data; emitter_log w endpoint data]).
Proof.
  intros data. subst data.
  unfold send_metrics_to_cloudwatch, try_except, bind, emitter_log, put_metric_data,
    reading, after_reads.
  cbn -[metric_data_of].
  destruct (cloudwatch w "TVShowTracker/API" _); reflexivity.
Qed.

Lemma track_metrics_returned func (w w1 : world T) r tr1 sc :
  func w = Some (Returned r, w1, tr1) -> tuple_status r = Some sc ->
  track_metrics func w
  = Some (Returned r, after_reads 3 w1, tr1 ++ tracked 0 w1 sc true None).
Proof.
  intros Hf Hs. unfold track_metrics, try_except, bind. rewrite Hf.
  destruct r as [body | elems]; cbn in Hs.
  - injection Hs as <-.
    cbn -[metric_data_of send_metrics_to_cloudwatch]. rewrite send_metrics_run.
    cbn -[metric_data_of]. reflexivity.
  - rewrite Hs.
    cbn -[metric_data_of send_metrics_to_cloudwatch]. rewrite send_metrics_run.
    cbn -[metric_data_of]. reflexivity.
Qed.

Lemma track_metrics_raised func (w w1 : world T) e tr1 :
  func w = Some (Raised e, w1, tr1) ->
  track_metrics func w
  = Some (Raised e, after_reads 3 w1,
          tr1 ++ tracked 0 w1 (JInt 500) false (Some (exn_name e))).
Proof.
  intros Hf. unfold track_metrics.
  rewrite (try_except_raised _ _ w e w1 tr1) by (now apply bind_raised).
  unfold bind.
  cbn -[metric_data_of send_metrics_to_cloudwatch]. rewrite send_metrics_run.
  cbn -[metric_data_of]. reflexivity.
Qed.

Lemma track_metrics_short_tuple func (w w1 : world T) r tr1 :
  func w = Some (Returned r, w1, tr1) -> tuple_status r = None ->
  track_metrics func w
  = Some (Raised (IndexError "tuple index out of range"), after_reads 5 w1,
          tr1 ++ tracked 2 w1 (JInt 500) false (Some "IndexError")).
Proof.
  intros Hf Hs. unfold track_metrics, try_except, bind. rewrite Hf.
  destruct r as [body | elems]; cbn in Hs; [discriminate |].
  rewrite Hs.
  cbn -[metric_data_of send_metrics_to_cloudwatch]. rewrite send_metrics_run.
  cbn -[metric_data_of]. rewrite app_nil_r. reflexivity.
Qed.

Lemma track_metrics_diverges func (w : world T) :
  func w = None -> track_metrics func w = None.
Proof. intros Hf. unfold track_metrics, try_except, bind. now rewrite Hf. Qed.

Lemma log_api_call_enter_run req (w : world T) :
  log_api_call_enter isoformat req w
  = Some (Returned (reading 1 w, endpoint_name req, req_method req),
          entered req w, [start_event isoformat req w]).
Proof. reflexivity. Qed.

Lemma log_api_call_returned req func (w w1 : world T) r tr1 sc :
  func (entered req w) = Some (Returned r, w1, tr1) -> tuple_status r = Some sc ->
  log_api_call isoformat req func w
  = Some (Returned r, after_reads 2 w1,
          start_event isoformat req w :: tr1 ++ [success_event isoformat req w w1 sc]).
Proof.
  intros Hf Hs. unfold log_api_call.
  rewrite (bind_returned _ _ _ _ _ _ (log_api_call_enter_run req w)).
  unfold try_except, bind. rewrite Hf.
  destruct r as [body | elems]; cbn in Hs.
  - injection Hs as <-. reflexivity.
  - rewrite Hs. reflexivity.
Qed.

Lemma log_api_call_raised req func (w w1 : world T) e tr1 :
  func (entered req w) = Some (Raised e, w1, tr1) ->
  log_api_call isoformat req func w
  = Some (Raised e, after_reads 2 w1,
          start_event isoformat req w :: tr1 ++ [error_event isoformat req w w1 0 e]).
Proof.
  intros Hf. unfold log_api_call.
  rewrite (bind_returned _ _ _ _ _ _ (log_api_call_enter_run req w)).
  unfold try_except, bind. rewrite Hf. reflexivity.
Qed.

Lemma log_api_call_short_tuple req func (w w1 : world T) r tr1 :
  func (entered req w) = Some (Returned r, w1, tr1) -> tuple_status r = None ->
  log_api_call isoformat req func w
  = Some (Raised (IndexError "tuple index out of range"), after_reads 3 w1,
          start_event isoformat req w
          :: tr1 ++ [error_event isoformat req w w1 1
                       (IndexError "tuple index out of range")]).
Proof.
  intros Hf Hs. unfold log_api_call.
  rewrite (bind_returned _ _ _ _ _ _ (log_api_call_enter_run req w)).
  unfold try_except, bind. rewrite Hf.
  destruct r as [body | elems]; cbn in Hs; [discriminate |].
  rewrite Hs. cbn. now rewrite app_nil_r.
Qed.

Lemma log_api_call_diverges req func (w : world T) :
  func (entered req w) = None -> log_api_call isoformat req func w = None.
Proof.
  intros Hf. unfold log_api_call.
  rewrite (bind_returned _ _ _ _ _ _ (log_api_call_enter_run req w)).
  unfold try_except, bind. now rewrite Hf.
Qed.

(** The chain hands on what the wrapped function gives. *)
Lemma instrumented_result req func (w : world T) :
  result_of (instrumented isoformat req func w)
  = match func (entered req w) with
    | None => None
    | Some (Raised e, _, _) => Some (Raised e)
    | Some (Returned r, _, _) =>
        match tuple_status r with
        | Some _ => Some (Returned r)
        | None => Some (Raised (IndexError "tuple index out of range"))
        end
    end.
Proof.
  unfold instrumented.
  destruct (func (entered req w)) as [[[[r | e] w1] trH] |] eqn:Hf.
  - destruct (tuple_status r) as [sc |] eqn:Hs.
    + erewrite log_api_call_returned; eauto using track_metrics_returned.
    + erewrite log_api_call_raised; eauto using track_metrics_short_tuple.
  - erewrite log_api_call_raised; eauto using track_metrics_raised.
  - erewrite log_api_call_diverges; eauto using track_metrics_diverges.
Qed.

Lemma status_rule_tuple_status r sc : status_rule r = Some sc -> tuple_status r = Some sc.
Proof.
  destruct r as [body | [| payload [| status [| third rest]]]]; cbn; congruence.
Qed.

(** C2: [send_metrics_to_cloudwatch] returns normally whatever the
    CloudWatch client does with the call, also when it raises; and for each
    of the four views behind the two wrappers, the outcome of a request
    (status and body) with any CloudWatch client is the outcome with a
    client that accepts every call. *)
Theorem emitter_faults_stay_inside :
  (forall endpoint method status_code duration success error_type (w : world T),
      exists w' tr,
        send_metrics_to_cloudwatch endpoint method status_code duration success
          error_type w = Some (Returned tt, w', tr))
  /\ (forall fuel req cw (w : world T),
        Forall (fun view =>
                  result_of (instrumented isoformat req (in_env view) (with_sink cw w))
                  = result_of (instrumented isoformat req (in_env view)
                                 (with_sink (fun _ _ => None) w)))
               (views isoformat fuel req)).
Proof.
  split.
  - intros. eexists _, _. apply send_metrics_run.
  - intros fuel req cw w.
    assert (Hany : forall view : M (env T) retval,
               result_of (instrumented isoformat req (in_env view) (with_sink cw w))
               = result_of (instrumented isoformat req (in_env view)
                              (with_sink (fun _ _ => None) w))).
    { intros view. rewrite !instrumented_result. unfold in_env. cbn.
      destruct (view _) as [[[[r | e] e1] trH] |]; reflexivity. }
    unfold views. repeat constructor; apply Hany.
Qed.

(** C6: when the wrapped function raises [e], the metrics tracker puts the
    sample with status 500, no success and the name of the type of [e] and
    raises [e]; the call logger around it logs the error record with that
    name and raises [e]. *)
Theorem failure_measured_logged_reraised req func (w w1 : world T) e trH :
  func (entered req w) = Some (Raised e, w1, trH) ->
  track_metrics func (entered req w)
  = Some (Raised e, after_reads 3 w1,
          trH ++ tracked 0 w1 (JInt 500) false (Some (exn_name e)))
  /\ instrumented isoformat req func w
     = Some (Raised e, after_reads 5 w1,
             start_event isoformat req w
             :: (trH ++ tracked 0 w1 (JInt 500) false (Some (exn_name e)))
             ++ [error_event isoformat req w (after_reads 3 w1) 0 e]).
Proof.
  intros Hf. pose proof (track_metrics_raised _ _ _ _ _ Hf) as Ht.
  split; [exact Ht |].
  unfold instrumented. now rewrite (log_api_call_raised _ _ _ _ _ _ Ht).
Qed.

(** C7: for a result that is a (payload, status) pair both wrappers take
    the status from its second component, for a result that is not a tuple
    both take 200: the status of the sample and the status of the success
    record are the one [status_rule] gives. *)
Theorem both_stages_same_status req func (w w1 : world T) r trH sc :
  func (entered req w) = Some (Returned r, w1, trH) ->
  status_rule r = Some sc ->
  track_metrics func (entered req w)
  = Some (Returned r, after_reads 3 w1, trH ++ tracked 0 w1 sc true None)
  /\ log_api_call isoformat req func w
     = Some (Returned r, after_reads 2 w1,
             start_event isoformat req w :: trH ++ [success_event isoformat req w w1 sc])
  /\ instrumented isoformat req func w
     = Some (Returned r, after_reads 5 w1,
             start_event isoformat req w
             :: (trH ++ tracked 0 w1 sc true None)
             ++ [success_event isoformat req w (after_reads 3 w1) sc]).
Proof.
  intros Hf Hr. apply status_rule_tuple_status in Hr.
  pose proof (track_metrics_returned _ _ _ _ _ _ Hf Hr) as Ht.
  split; [exact Ht | split].
  - now apply log_api_call_returned.
  - unfold instrumented. now rewrite (log_api_call_returned _ _ _ _ _ _ _ Ht Hr).
Qed.

(** C8: the trace of a request through both wrappers starts with the
    start record; the events of the wrapped function follow, whole; the one
    call of [put_metric_data] comes after them, then the records that close
    the emission and the call. A wrapped function that never finishes
    leaves no emission. *)
Theorem start_then_handler_then_emission req func (w : world T) :
  match func (entered req w) with
  | None => instrumented isoformat req func w = None
  | Some (_, w1, trH) =>
      exists o w' data lvl msg extra lvl' msg' extra',
        instrumented isoformat req func w
        = Some (o, w',
                Log INFO "API_CALL_START"
                  [("endpoint", FVal (JStr (endpoint_name req)));
                   ("method", FVal (JStr (req_method req)));
                   ("user_agent", FVal (JStr (default "unknown" (req_user_agent req))));
                   ("timestamp", FVal (JStr (isoformat (reading 2 w))))]
                :: trH
                ++ [PutMetricData "TVShowTracker/API" data; Log lvl msg extra;
                    Log lvl' msg' extra'])
  end.
Proof.
  unfold instrumented.
  destruct (func (entered req w)) as [[[[r | e] w1] trH] |] eqn:Hf.
  - destruct (tuple_status r) as [sc |] eqn:Hs.
    + pose proof (track_metrics_returned _ _ _ _ _ _ Hf Hs) as Ht.
      rewrite (log_api_call_returned _ _ _ _ _ _ _ Ht Hs).
      unfold tracked, emitter_log, success_event.
      destruct (cloudwatch w1 _ _); repeat eexists; rewrite <- app_assoc; reflexivity.
    + pose proof (track_metrics_short_tuple _ _ _ _ _ Hf Hs) as Ht.
      rewrite (log_api_call_raised _ _ _ _ _ _ Ht).
      unfold tracked, emitter_log, error_event.
      destruct (cloudwatch w1 _ _); repeat eexists; rewrite <- app_assoc; reflexivity.
  - pose proof (track_metrics_raised _ _ _ _ _ Hf) as Ht.
    rewrite (log_api_call_raised _ _ _ _ _ _ Ht).
    unfold tracked, emitter_log, error_event.
    destruct (cloudwatch w1 _ _); repeat eexists; rewrite <- app_assoc; reflexivity.
  - apply log_api_call_diverges. now apply track_metrics_diverges.
Qed.

End DecoratorRuns.

(** ** The views *)

Section ViewProperties.
Context {T : Type} {ops : TableOps T}.
Variable isoformat : Z -> string.

Lemma falsy_nonempty (u : string) : u <> "" -> falsy (Some u) = false.
Proof.
  intros Hu. unfold falsy. cbn.
  destruct (String.eqb_spec u ""); [contradiction | reflexivity].
Qed.

Lemma append_each_all (f : item -> outcome json) items : forall acc es,
  Forall2 (fun it e => f it = Returned e) items es ->
  append_each f acc items = Returned (acc ++ es).
Proof.
  induction items as [| it rest IH]; intros acc es Hall; inversion Hall; subst; cbn.
  - now rewrite app_nil_r.
  - match goal with H : f it = _ |- _ => rewrite H end.
    rewrite IH with (es := l') by assumption.
    now rewrite <- app_assoc.
Qed.

(** What [append_each] returns extends the accumulator, one element for
    each item. *)
Lemma append_each_length (f : item -> outcome json) items : forall acc out,
  append_each f acc items = Returned out ->
  length out = (length acc + length items)%nat.
Proof.
  induction items as [| it rest IH]; intros acc out; cbn.
  - intros [= <-]. lia.
  - destruct (f it) as [d | e]; [| discriminate].
    intros Hout. apply IH in Hout. rewrite length_app in Hout. cbn in Hout. lia.
Qed.

(** C9: for a non-empty username the query finds no item for, [show_user]
    returns the response with status 200, the empty list of shows and the
    count 0. *)
Theorem unknown_user_is_empty_success req (s : env T) username :
  args_get req "username" = Some username ->
  username <> "" ->
  query (table s) (JStr username) = Returned [] ->
  exists r tr,
    show_user req s = Some (Returned r, s, tr)
    /\ r = Plain (jsonify [("username", JStr username); ("shows", JArr []);
                           ("total_shows", JInt 0)])
    /\ flask_status r = Some (JInt 200).
Proof.
  intros Harg Hu Hq. unfold show_user. rewrite Harg, (falsy_nonempty _ Hu).
  unfold try_except, bind, table_query. cbn. rewrite Hq. cbn.
  eexists _, _. repeat split.
Qed.

(** The closing [except] clauses answer 500 and touch nothing. *)
Lemma db_errors_run where_ e (s : env T) :
  exists body record,
    db_errors where_ e s = Some (Returned (Tuple [body; JInt 500]), s, [record]).
Proof.
  unfold db_errors. destruct (isinstance e "ClientError"); cbn; eexists _, _; reflexivity.
Qed.

(** C10: a response of [show_user] with status 200 carries a list of shows
    and its length as [total_shows]; a response of [show_all] with status
    200 carries a list of entries and its length as [total_entries]. *)
Theorem count_equals_length :
  (forall req (s s' : env T) r tr,
      show_user req s = Some (Returned r, s', tr) ->
      flask_status r = Some (JInt 200) ->
      exists shows,
        r = Plain (jsonify [("username", opt_str (args_get req "username"));
                            ("shows", JArr shows);
                            ("total_shows", JInt (Z.of_nat (length shows)))]))
  /\ (forall fuel req (s s' : env T) r tr,
        show_all fuel req s = Some (Returned r, s', tr) ->
        flask_status r = Some (JInt 200) ->
        exists entries,
          r = Plain (jsonify [("entries", JArr entries);
                              ("total_entries", JInt (Z.of_nat (length entries)))])).
Proof.
  split.
  - intros req s s' r tr. unfold show_user.
    destruct (falsy (args_get req "username")).
    { cbn. intros [= <- _ _]. discriminate. }
    unfold try_except, bind, table_query. cbn.
    destruct (query (table s) _) as [items | e].
    + cbn. destruct (append_each show_of [] items) as [shows | e].
      * cbn. intros [= <- _ _] _. now exists shows.
      * destruct (db_errors_run "show_user" e s) as (body & record & ->).
        intros [= <- _ _]. discriminate.
    + destruct (db_errors_run "show_user" e s) as (body & record & ->).
      intros [= <- _ _]. discriminate.
  - intros fuel req s s' r tr. unfold show_all, try_except.
    destruct (bind (table_scan None) _ s) as [[[[r0 | e] s1] tr1] |] eqn:Hbody;
      [| | discriminate].
    + intros [= <- _ _] _. revert Hbody. unfold bind, table_scan. cbn.
      destruct (scan (table s) None) as [p | e]; [| discriminate]. cbn.
      destruct (append_each entry_of [] (Items p)) as [es0 | e]; [| discriminate]. cbn.
      destruct (scan_rest fuel p es0 s) as [[[[es | e] s2] tr2] |]; [| discriminate ..].
      cbn. intros [= <- _ _]. now exists es.
    + destruct (db_errors_run "show_all" e s1) as (body & record & ->).
      intros [= <- _ _]. discriminate.
Qed.

Lemma scan_rest_done fuel p acc (s : env T) :
  LastEvaluatedKey p = None -> scan_rest fuel p acc s = Some (Returned acc, s, []).
Proof. intros Hp. destruct fuel; cbn; now rewrite Hp. Qed.

Lemma scan_rest_step fuel p key p' acc acc' (s : env T) :
  LastEvaluatedKey p = Some key ->
  scan (table s) (Some key) = Returned p' ->
  append_each entry_of acc (Items p') = Returned acc' ->
  scan_rest (S fuel) p acc s = scan_rest fuel p' acc' s.
Proof.
  intros Hp Hscan Happ. cbn. rewrite Hp.
  unfold bind, table_scan. rewrite Hscan. cbn. rewrite Happ. cbn.
  destruct (scan_rest fuel p' acc' s) as [[[o s2] tr2] |]; reflexivity.
Qed.

(** The loop follows a chain of pages to its end and appends their items
    in order. *)
Lemma scan_rest_follows (s : env T) start ps :
  page_chain (table s) start ps ->
  forall key p fuel acc es,
    start = Some key -> LastEvaluatedKey p = Some key ->
    (length ps <= fuel)%nat ->
    Forall2 (fun it e => entry_of it = Returned e) (concat (map Items ps)) es ->
    scan_rest fuel p acc s = Some (Returned (acc ++ es), s, []).
Proof.
  induction 1 as [start p0 Hscan Hlast | start p0 key0 ps Hscan Hnext Hchain IH];
    intros key p fuel acc es -> Hp Hfuel Hall; cbn in Hfuel, Hall.
  - destruct fuel as [| fuel]; [lia |].
    rewrite app_nil_r in Hall.
    rewrite (scan_rest_step _ _ _ _ _ _ _ Hp Hscan (append_each_all _ _ _ _ Hall)).
    now apply scan_rest_done.
  - destruct fuel as [| fuel]; [lia |].
    apply Forall2_app_inv_l in Hall as (es1 & es2 & Hall1 & Hall2 & ->).
    rewrite (scan_rest_step _ _ _ _ _ _ _ Hp Hscan (append_each_all _ _ _ _ Hall1)).
    rewrite app_assoc. eapply IH; eauto. lia.
Qed.

(** [show_all] on a table whose scan hands out the pages [ps]. *)
Lemma show_all_follows_chain (s : env T) ps entries fuel req :
  page_chain (table s) None ps ->
  Forall2 (fun it e => entry_of it = Returned e) (concat (map Items ps)) entries ->
  (length ps <= S fuel)%nat ->
  show_all fuel req s
  = Some (Returned (Plain (jsonify [("entries", JArr entries);
                                    ("total_entries", JInt (Z.of_nat (length entries)))])),
          s,
          [Log INFO "Retrieved all entries from table"
             [("len(entries)", FVal (len entries))]]).
Proof.
  intros Hchain Hall Hfuel. unfold show_all, try_except, bind, table_scan.
  inversion Hchain as [start p Hscan Hlast | start p key ps' Hscan Hnext Hrest]; subst;
    rewrite Hscan; cbn in Hall |- *.
  - rewrite app_nil_r in Hall.
    rewrite (append_each_all _ _ [] _ Hall). cbn.
    rewrite (scan_rest_done _ _ _ _ Hlast). reflexivity.
  - apply Forall2_app_inv_l in Hall as (es1 & es2 & Hall1 & Hall2 & ->).
    rewrite (append_each_all _ _ [] _ Hall1). cbn.
    rewrite (scan_rest_follows _ _ _ Hrest key p fuel es1 es2 eq_refl Hnext); auto.
    cbn in Hfuel. lia.
Qed.

(** C5: when the scan of the table hands out the pages [ps], linked by
    their markers, [show_all] follows them to the end (given the fuel for
    them) and returns one entry for each item of each page, in the order of
    the pages: as many entries as the pages hold items, and [total_entries]
    is that number. *)
Theorem show_all_returns_every_page (s : env T) ps entries fuel req :
  page_chain (table s) None ps ->
  Forall2 (fun it e => entry_of it = Returned e) (concat (map Items ps)) entries ->
  (length ps <= S fuel)%nat ->
  show_all fuel req s
  = Some (Returned (Plain (jsonify [("entries", JArr entries);
                                    ("total_entries", JInt (Z.of_nat (length entries)))])),
          s,
          [Log INFO "Retrieved all entries from table"
             [("len(entries)", FVal (len entries))]])
  /\ length entries = sum_list (map (fun p => length (Items p)) ps).
Proof.
  intros Hchain Hall Hfuel. split.
  - now apply show_all_follows_chain with (ps := ps).
  - rewrite <- (Forall2_length _ _ _ Hall).
    clear. induction ps as [| p ps IH]; cbn; [reflexivity |].
    now rewrite length_app, IH.
Qed.

(** The clock does not run backwards. *)
Lemma tick_later (c : clock) : now c <= now (tick c).
Proof. unfold tick. destruct (ticks c) as [| d r]; cbn; lia. Qed.

Lemma truthy_nonempty (u : string) : u <> "" -> truthy (JStr u) = true.
Proof. intros Hu. cbn. destruct (String.eqb_spec u ""); [contradiction | reflexivity]. Qed.

Lemma episode_item_lookups username tv_show season episode t :
  let it := episode_item isoformat username tv_show season episode t in
  it !! "username" = Some username /\ it !! "tv_show" = Some tv_show
  /\ it !! "season" = Some (JInt season) /\ it !! "episode" = Some (JInt episode)
  /\ it !! "last_updated" = Some (JStr (isoformat t)).
Proof. unfold episode_item. repeat split; now simplify_map_eq. Qed.


End ViewProperties.

(** ** Loading the module *)

(** C1: line 4 of [api.py] imports [send_http_metrics], a name
    [utils/decorator.py] does not define, and every view is decorated with it
    below the two stages of the chain: executing the module raises
    [ImportError], no view is registered. *)
Theorem api_module_does_not_load :
  load_api = Raised (ImportError "cannot import name send_http_metrics")
  /\ Forall (fun v => snd v = instrumentation_chain ++ ["send_http_metrics"]) view_decorators
  /\ ~ In "send_http_metrics" decorator_module.
Proof.
  split; [reflexivity | split].
  - unfold view_decorators. repeat constructor.
  - cbn. intros H. repeat (destruct H as [H | H]; [discriminate H |]). exact H.
Qed.

(** ** The store the examples run on *)

Lemma mem_table_laws : store_laws mem_table.
Proof.
  split.
  - intros t it u s Hu Hs Hune Hsne. cbn. unfold mem_put_item. rewrite Hu, Hs.
    destruct (String.eqb_spec u ""); [contradiction |].
    destruct (String.eqb_spec s ""); [contradiction |]. cbn. eauto.
  - intros t t' it u s Hu Hs. cbn. unfold mem_put_item, mem_get_item. rewrite Hu, Hs.
    destruct (String.eqb u "" || String.eqb s ""); [discriminate |].
    intros [= <-]. cbn. now rewrite lookup_insert_eq.
Qed.

(** The scan of the in-memory store from [n] rows on is a finite chain of
    pages that holds the remaining rows, each once. *)
Lemma mem_scan_chain (t : mem_table) : forall (m n : nat) (start : option json),
  let all := map snd (map_to_list (rows t)) in
  (length all - n <= m)%nat ->
  (start = None /\ n = 0%nat) \/ start = Some (JInt (Z.of_nat n)) ->
  exists ps,
    page_chain t start ps /\ concat (map Items ps) = drop n all /\ (length ps <= S m)%nat.
Proof.
  intros m. induction m as [| m IH]; intros n start all Hm Hstart.
  all: set (k := S (page_limit t)).
  all: set (p := Page (take k (drop n all))
                      (if (n + k <? length all)%nat then Some (JInt (Z.of_nat (n + k)))
                       else None)).
  all: assert (Hscan : scan t start = Returned p)
         by (destruct Hstart as [[-> ->] | ->]; cbn; unfold mem_scan;
             rewrite ?Nat2Z.id; reflexivity).
  all: destruct (Nat.ltb_spec (n + k) (length all)) as [Hlt | Hge].
  - lia.
  - exists [p]. split; [| split; [| cbn; lia]].
    + apply chain_last; [exact Hscan |]. subst p. cbn.
      destruct (Nat.ltb_spec (n + k) (length all)); [lia | reflexivity].
    + cbn. rewrite app_nil_r. apply take_ge. rewrite length_drop. lia.
  - destruct (IH (n + k)%nat (Some (JInt (Z.of_nat (n + k))))) as (ps & Hps & Hcat & Hlen);
      [fold all; lia | now right |].
    exists (p :: ps). split; [| split; [| cbn; lia]].
    + eapply chain_more; [exact Hscan | | exact Hps]. subst p. cbn.
      destruct (Nat.ltb_spec (n + k) (length all)); [reflexivity | lia].
    + cbn. rewrite Hcat. fold all. rewrite <- drop_drop. apply take_drop.
  - exists [p]. split; [| split; [| cbn; lia]].
    + apply chain_last; [exact Hscan |]. subst p. cbn.
      destruct (Nat.ltb_spec (n + k) (length all)); [lia | reflexivity].
    + cbn. rewrite app_nil_r. apply take_ge. rewrite length_drop. lia.
Qed.

(** On the in-memory store [show_all] returns one entry for each row of the
    table, whatever the size of its pages. *)
Lemma mem_show_all_every_row (s : env mem_table) (entries : list json) req :
  Forall2 (fun row e => entry_of (snd row) = Returned e) (map_to_list (rows (table s)))
          entries ->
  show_all (length entries) req s
  = Some (Returned (Plain (jsonify [("entries", JArr entries);
                                    ("total_entries", JInt (Z.of_nat (length entries)))])),
          s,
          [Log INFO "Retrieved all entries from table" [("len(entries)", FVal (len entries))]]).
Proof.
  intros Hrows.
  destruct (mem_scan_chain (table s) (length entries) 0 None) as (ps & Hps & Hcat & Hlen).
  { rewrite length_map, (Forall2_length _ _ _ Hrows). lia. }
  { now left. }
  apply show_all_follows_chain with (ps := ps); [exact Hps | | exact Hlen].
  rewrite Hcat. cbn. now apply Forall2_fmap_l.
Qed.

(** ** [update_episode] and what it accepts *)

(** C3: a request with season 3.7 is answered 201, and the row is written
    with season 3. *)
Theorem fractional_season_is_written :
  let req := post_update (update_body (JStr "john_doe") (JStr "Breaking Bad")
                            (JFloat float_3_7) (JInt 7)) in
  rows (table empty_env) !! ("john_doe", "Breaking Bad") = None
  /\ exists s' tr,
      update_episode stamp req empty_env
      = Some (Returned (Tuple [jsonify [("message", JStr "Episode updated successfully");
                                        ("username", JStr "john_doe");
                                        ("tv_show", JStr "Breaking Bad");
                                        ("season", JInt 3); ("episode", JInt 7)];
                               JInt 201]), s', tr)
      /\ rows (table s') !! ("john_doe", "Breaking Bad")
         = Some (episode_item stamp (JStr "john_doe") (JStr "Breaking Bad") 3 7 1003).
Proof.
  split; [reflexivity |]. eexists _, _. split; [vm_compute; reflexivity |].
  vm_compute. reflexivity.
Qed.

Section UpdateEpisode.
Context {T : Type} {ops : TableOps T}.
Variable isoformat : Z -> string.

(** X8: A request [update_episode] answers with 400 leaves the store as it was. *)
Lemma update_episode_400_writes_nothing req (s s' : env T) r tr :
  update_episode isoformat req s = Some (Returned r, s', tr) ->
  flask_status r = Some (JInt 400) ->
  s' = s.
Proof.
  unfold update_episode, bind, lift_outcome.
  destruct (req_json req) as [data | e]; [| discriminate].
  destruct (negb (truthy data)); cbn -[truthy].
  { intros [= <- <- _]. reflexivity. }
  destruct (dict_get data "username") as [username | e]; [| discriminate].
  destruct (dict_get data "tv_show") as [tv_show | e]; [| discriminate].
  destruct (dict_get data "season") as [season | e]; [| discriminate].
  destruct (dict_get data "episode") as [episode | e]; [| discriminate].
  cbn -[truthy].
  destruct (negb _); cbn -[truthy].
  { intros [= <- <- _]. reflexivity. }
  rewrite !rewrap.
  assert (Hinvalid : forall a b e,
             invalid_format (T := T) a b e s = Some (Returned r, s', tr) -> s' = s).
  { intros a b e. unfold invalid_format.
    destruct (_ || _); cbn; [intros [= _ <- _]; reflexivity | discriminate]. }
  destruct (py_int season) as [se | e]; [| now eauto].
  destruct (py_int episode) as [ep | e]; [| now eauto].
  destruct (_ || _); cbn.
  { intros [= <- <- _]. reflexivity. }
  unfold try_except, table_put_item. cbn.
  destruct (put_item (table s) _) as [t' | e]; cbn.
  - intros [= <- _ _]. discriminate.
  - destruct (db_errors_run "update_episode" e
                (Env (table s) (tick (clk s)))) as (body & record & ->).
    intros [= <- _ _]. discriminate.
Qed.


End UpdateEpisode.

(** The cases the specification names are among the rejected ones. *)
Example season_zero_rejected :
  exists body tr,
    update_episode stamp
      (post_update (update_body (JStr "john_doe") (JStr "Breaking Bad") (JInt 0) (JInt 7)))
      sample_env
    = Some (Returned (Tuple [body; JInt 400]), sample_env, tr).
Proof. eexists _, _. vm_compute. reflexivity. Qed.

Example season_word_rejected :
  exists body tr,
    update_episode stamp
      (post_update (update_body (JStr "john_doe") (JStr "Breaking Bad") (JStr "three") (JInt 7)))
      sample_env
    = Some (Returned (Tuple [body; JInt 400]), sample_env, tr).
Proof. eexists _, _. vm_compute. reflexivity. Qed.

(** An infinite season is neither rejected nor written: [int()] raises
    [OverflowError], which no clause of the view catches. *)
Example season_infinity_raises :
  update_episode stamp
    (post_update (update_body (JStr "john_doe") (JStr "Breaking Bad")
                    (JFloat (FInf false)) (JInt 7)))
    sample_env
  = Some (Raised (OverflowError "cannot convert float infinity to integer"), sample_env, []).
Proof. reflexivity. Qed.

(** ** The theorems at sample requests *)

(** An update with an infinite season, through both wrappers. *)
Lemma failure_measured_logged_reraised_witness :
  let req := post_update (update_body (JStr "john_doe") (JStr "Breaking Bad")
                            (JFloat (FInf false)) (JInt 7)) in
  let func := in_env (update_episode stamp req) in
  let e := OverflowError "cannot convert float infinity to integer" in
  let w1 := entered req sample_world in
  func (entered req sample_world) = Some (Raised e, w1, [])
  /\ track_metrics func (entered req sample_world)
     = Some (Raised e, after_reads 3 w1, [] ++ tracked 0 w1 (JInt 500) false (Some "OverflowError"))
  /\ instrumented stamp req func sample_world
     = Some (Raised e, after_reads 5 w1,
             start_event stamp req sample_world
             :: ([] ++ tracked 0 w1 (JInt 500) false (Some "OverflowError"))
             ++ [error_event stamp req sample_world (after_reads 3 w1) 0 e]).
Proof.
  intros req func e w1. split; [reflexivity |].
  apply (failure_measured_logged_reraised stamp req func sample_world w1 e []).
  reflexivity.
Defined.

(** A valid update, through both wrappers: both read 201 off the pair. *)
Lemma both_stages_same_status_witness :
  let req := post_update (update_body (JStr "jane_smith") (JStr "Dark") (JInt 1) (JInt 2)) in
  let func := in_env (update_episode stamp req) in
  let r := Tuple [jsonify [("message", JStr "Episode updated successfully");
                           ("username", JStr "jane_smith"); ("tv_show", JStr "Dark");
                           ("season", JInt 1); ("episode", JInt 2)];
                  JInt 201] in
  let trH := [Log INFO "Updated episode data"
                [("username", FVal (JStr "jane_smith")); ("tv_show", FVal (JStr "Dark"));
                 ("season", FVal (JInt 1)); ("episode", FVal (JInt 2))]] in
  exists w1,
    func (entered req sample_world) = Some (Returned r, w1, trH)
    /\ status_rule r = Some (JInt 201)
    /\ track_metrics func (entered req sample_world)
       = Some (Returned r, after_reads 3 w1, trH ++ tracked 0 w1 (JInt 201) true None)
    /\ log_api_call stamp req func sample_world
       = Some (Returned r, after_reads 2 w1,
               start_event stamp req sample_world
               :: trH ++ [success_event stamp req sample_world w1 (JInt 201)])
    /\ instrumented stamp req func sample_world
       = Some (Returned r, after_reads 5 w1,
               start_event stamp req sample_world
               :: (trH ++ tracked 0 w1 (JInt 201) true None)
               ++ [success_event stamp req sample_world (after_reads 3 w1) (JInt 201)]).
Proof.
  intros req func r trH. eexists.
  assert (Hf : func (entered req sample_world) = Some (Returned r, _, trH))
    by (vm_compute; reflexivity).
  split; [exact Hf | split; [reflexivity |]].
  exact (both_stages_same_status stamp req func sample_world _ r trH (JInt 201) Hf eq_refl).
Defined.

(** A user the sample table has no row for. *)
Lemma unknown_user_is_empty_success_witness :
  let req := get_view "api.show_user" [("username", "nobody")] in
  args_get req "username" = Some "nobody"
  /\ "nobody" <> ""
  /\ query (table sample_env) (JStr "nobody") = Returned []
  /\ exists r tr,
      show_user req sample_env = Some (Returned r, sample_env, tr)
      /\ r = Plain (jsonify [("username", JStr "nobody"); ("shows", JArr []);
                             ("total_shows", JInt 0)])
      /\ flask_status r = Some (JInt 200).
Proof.
  intros req.
  assert (Hne : "nobody" <> "") by discriminate.
  assert (Hq : query (table sample_env) (JStr "nobody") = Returned [])
    by (vm_compute; reflexivity).
  split; [reflexivity | split; [exact Hne | split; [exact Hq |]]].
  exact (unknown_user_is_empty_success req sample_env "nobody" eq_refl Hne Hq).
Defined.

(** The entries of the sample table, in the order its scan hands them out. *)
Lemma show_all_returns_every_page_witness :
  let ps := [Page [stranger_things] (Some (JInt 1)); Page [breaking_bad] (Some (JInt 2));
             Page [the_office] None] in
  let entry (username tv_show : string) (season episode : Z) (last_updated : string) :=
    JObj [("username", JStr username); ("tv_show", JStr tv_show); ("season", JInt season);
          ("episode", JInt episode); ("last_updated", JStr last_updated)] in
  let entries := [entry "jane_smith" "Stranger Things" 4 3 "2024-01-16T14:45:00Z";
                  entry "john_doe" "Breaking Bad" 3 7 "2024-01-15T10:30:00Z";
                  entry "john_doe" "The Office" 5 12 "2024-01-14T20:15:00Z"] in
  page_chain (table sample_env) None ps
  /\ Forall2 (fun it e => entry_of it = Returned e) (concat (map Items ps)) entries
  /\ (length ps <= 3)%nat
  /\ show_all 2 (get_view "api.show_all" []) sample_env
     = Some (Returned (Plain (jsonify [("entries", JArr entries);
                                       ("total_entries", JInt 3)])),
             sample_env,
             [Log INFO "Retrieved all entries from table" [("len(entries)", FVal (JInt 3))]])
  /\ length entries = sum_list (map (fun p => length (Items p)) ps).
Proof.
  intros ps entry entries.
  assert (Hchain : page_chain (table sample_env) None ps).
  { eapply chain_more; [vm_compute; reflexivity | reflexivity |].
    eapply chain_more; [vm_compute; reflexivity | reflexivity |].
    apply chain_last; [vm_compute; reflexivity | reflexivity]. }
  assert (Hall : Forall2 (fun it e => entry_of it = Returned e) (concat (map Items ps)) entries)
    by (repeat constructor).
  assert (Hfuel : (length ps <= 3)%nat) by (cbn; lia).
  split; [exact Hchain | split; [exact Hall | split; [exact Hfuel |]]].
  exact (show_all_returns_every_page sample_env ps entries 2 (get_view "api.show_all" [])
           Hchain Hall Hfuel).
Defined.


(** The shows of a user of the sample table, and all its entries. *)
Lemma count_equals_length_witness :
  let show := JObj [("tv_show", JStr "Stranger Things"); ("season", JInt 4);
                    ("episode", JInt 3); ("last_updated", JStr "2024-01-16T14:45:00Z")] in
  let req := get_view "api.show_user" [("username", "jane_smith")] in
  let r := Plain (jsonify [("username", JStr "jane_smith"); ("shows", JArr [show]);
                           ("total_shows", JInt 1)]) in
  let tr := [Log INFO "Retrieved shows for user"
               [("len(shows)", FVal (JInt 1)); ("username", FVal (JStr "jane_smith"))]] in
  show_user req sample_env = Some (Returned r, sample_env, tr)
  /\ flask_status r = Some (JInt 200)
  /\ exists shows,
      r = Plain (jsonify [("username", opt_str (args_get req "username"));
                          ("shows", JArr shows);
                          ("total_shows", JInt (Z.of_nat (length shows)))]).
Proof.
  intros show req r tr.
  assert (Hrun : show_user req sample_env = Some (Returned r, sample_env, tr))
    by (vm_compute; reflexivity).
  split; [exact Hrun | split; [reflexivity |]].
  exact (proj1 (count_equals_length (T := mem_table)) req sample_env sample_env r tr
           Hrun eq_refl).
Defined.

(** The update of the specification's example is answered 201 also when
    CloudWatch cannot be reached. *)
Example update_answers_201_without_cloudwatch :
  let req := post_update (update_body (JStr "john_doe") (JStr "Breaking Bad") (JInt 3) (JInt 7)) in
  result_of (instrumented stamp req (in_env (update_episode stamp req))
               (with_sink unreachable_sink sample_world))
  = Some (Returned (Tuple [jsonify [("message", JStr "Episode updated successfully");
                                    ("username", JStr "john_doe");
                                    ("tv_show", JStr "Breaking Bad");
                                    ("season", JInt 3); ("episode", JInt 7)];
                           JInt 201])).
Proof. vm_compute. reflexivity. Qed.

(** ** The views, case by case *)

Section ViewCases.
Context {T : Type} {ops : TableOps T}.
Variable isoformat : Z -> string.

(** The closing [except] clauses answer 500 with one of two fixed bodies. *)
Lemma db_errors_answer where_ e (s : env T) :
  exists record,
    db_errors where_ e s
    = Some (Returned (Tuple [if isinstance e "ClientError" then database_error_body
                             else internal_error_body; JInt 500]), s, [record]).
Proof.
  unfold db_errors. destruct (isinstance e "ClientError"); cbn; eexists; reflexivity.
Qed.

(** The four ways [show_episode] ends. *)
Lemma show_episode_cases req (s : env T) :
  let username := args_get req "username" in
  let tv_show := args_get req "tv_show" in
  (falsy username || falsy tv_show = true
   /\ exists tr,
       show_episode req s
       = Some (Returned (Tuple [jsonify [("error", JStr "Username and tv_show are required")];
                                JInt 400]), s, tr))
  \/ (falsy username || falsy tv_show = false
      /\ get_item (table s) (opt_str username) (opt_str tv_show) = Returned None
      /\ exists tr,
          show_episode req s
          = Some (Returned (Tuple [jsonify [("message",
                                             JStr "No data found for this user and TV show")];
                                   JInt 404]), s, tr))
  \/ (falsy username || falsy tv_show = false
      /\ exists it u sh se ep tr,
          get_item (table s) (opt_str username) (opt_str tv_show) = Returned (Some it)
          /\ it !! "username" = Some u /\ it !! "tv_show" = Some sh
          /\ it !! "season" = Some se /\ it !! "episode" = Some ep
          /\ show_episode req s
             = Some (Returned (Plain (jsonify [("username", u); ("tv_show", sh);
                                               ("season", se); ("episode", ep);
                                               ("last_updated",
                                                default (JStr "") (it !! "last_updated"))])),
                     s, tr))
  \/ (falsy username || falsy tv_show = false
      /\ (match get_item (table s) (opt_str username) (opt_str tv_show) with
          | Raised _ => True
          | Returned None => False
          | Returned (Some it) =>
              it !! "username" = None \/ it !! "tv_show" = None
              \/ it !! "season" = None \/ it !! "episode" = None
          end)
      /\ exists body tr,
          (body = database_error_body \/ body = internal_error_body)
          /\ show_episode req s = Some (Returned (Tuple [body; JInt 500]), s, tr)).
Proof.
  intros username tv_show. unfold show_episode. fold username tv_show.
  destruct (falsy username || falsy tv_show) eqn:Hargs.
  { left. split; [reflexivity |]. eexists. reflexivity. }
  right. unfold try_except, bind, table_get_item. cbn -[db_errors].
  assert (Hfail : forall e tr0,
             exists body tr,
               (body = database_error_body \/ body = internal_error_body)
               /\ match db_errors "show_episode" e s with
                  | Some (o, s2, tr2) => Some (o, s2, tr0 ++ tr2)
                  | None => None
                  end = Some (Returned (Tuple [body; JInt 500]), s, tr)).
  { intros e tr0. destruct (db_errors_answer "show_episode" e s) as [record ->].
    eexists _, _. split; [| reflexivity].
    destruct (isinstance e "ClientError"); auto. }
  destruct (get_item (table s) _ _) as [[it |] | e]; cbn -[db_errors].
  - unfold getitem.
    destruct (it !! "username") as [u |] eqn:Hu; cbn -[db_errors];
      [| right; right; split; [reflexivity | split; [auto | apply (Hfail _ [_])]]].
    destruct (it !! "tv_show") as [sh |] eqn:Hsh; cbn -[db_errors];
      [| right; right; split; [reflexivity | split; [auto | apply (Hfail _ [_])]]].
    destruct (it !! "season") as [se |] eqn:Hse; cbn -[db_errors];
      [| right; right; split; [reflexivity | split; [auto | apply (Hfail _ [_])]]].
    destruct (it !! "episode") as [ep |] eqn:Hep; cbn -[db_errors];
      [| right; right; split; [reflexivity | split; [auto | apply (Hfail _ [_])]]].
    right; left. split; [reflexivity |].
    exists it, u, sh, se, ep. eexists. repeat (split; [reflexivity || assumption |]).
    reflexivity.
  - left. split; [reflexivity | split; [reflexivity |]]. eexists. reflexivity.
  - right; right. split; [reflexivity | split; [exact I | apply (Hfail e [])]].
Qed.

(** X1: [show_episode] answers every request, with one of four statuses, and
    leaves the table and the clock as they were. *)
Theorem show_episode_always_answers req (s : env T) :
  exists r tr,
    show_episode req s = Some (Returned r, s, tr)
    /\ In (flask_status r) [Some (JInt 200); Some (JInt 400); Some (JInt 404); Some (JInt 500)].
Proof.
  destruct (show_episode_cases req s)
    as [(_ & tr & ->) | [(_ & _ & tr & ->) | [(_ & H) | (_ & _ & body & tr & _ & ->)]]].
  - eexists _, _. split; [reflexivity | cbn; auto].
  - eexists _, _. split; [reflexivity | cbn; auto].
  - destruct H as (it & u & sh & se & ep & tr & _ & _ & _ & _ & _ & ->).
    eexists _, _. split; [reflexivity | cbn; auto].
  - eexists _, _. split; [reflexivity | cbn; auto].
Qed.

(** X2: The status of [show_episode] tells the case: 400 exactly when a
    parameter is missing or empty, 404 exactly when both are given and the
    table has no item for them, 200 exactly when the item found has the four
    attributes the view reads. *)
Theorem show_episode_status_tells_case req (s s' : env T) r tr :
  show_episode req s = Some (Returned r, s', tr) ->
  let username := args_get req "username" in
  let tv_show := args_get req "tv_show" in
  (flask_status r = Some (JInt 400) <-> falsy username || falsy tv_show = true)
  /\ (flask_status r = Some (JInt 404)
      <-> falsy username || falsy tv_show = false
          /\ get_item (table s) (opt_str username) (opt_str tv_show) = Returned None)
  /\ (flask_status r = Some (JInt 200)
      <-> falsy username || falsy tv_show = false
          /\ exists it,
              get_item (table s) (opt_str username) (opt_str tv_show) = Returned (Some it)
              /\ is_Some (it !! "username") /\ is_Some (it !! "tv_show")
              /\ is_Some (it !! "season") /\ is_Some (it !! "episode")).
Proof.
  intros Hrun username tv_show. subst username tv_show.
  pose proof (show_episode_cases req s) as Hcases. cbv zeta in Hcases.
  destruct Hcases
    as [(Ha & tr0 & Heq) | [(Ha & Hg & tr0 & Heq)
        | [(Ha & it & u & sh & se & ep & tr0 & Hg & Hu & Hsh & Hse & Hep & Heq)
          | (Ha & Hg & body & tr0 & _ & Heq)]]].
  all: rewrite Heq in Hrun; injection Hrun as <- _ _; cbn.
  all: repeat split; intros; try congruence; try tauto.
  all: repeat match goal with
         | H : _ /\ _ |- _ => destruct H
         | H : exists _, _ |- _ => destruct H
         | H : is_Some _ |- _ => destruct H
         end; try congruence.
  - exists it. rewrite Hu, Hsh, Hse, Hep. repeat split; eauto.
  - rewrite H0 in Hg. contradiction.
  - rewrite H0 in Hg. intuition congruence.
Qed.

(** What [append_each] returns is the accumulator followed by the image of
    each item, in order. *)
Lemma append_each_returned (f : item -> outcome json) items : forall acc out,
  append_each f acc items = Returned out ->
  exists es, out = acc ++ es /\ Forall2 (fun it e => f it = Returned e) items es.
Proof.
  induction items as [| it rest IH]; intros acc out; cbn.
  - intros [= <-]. exists []. split; [now rewrite app_nil_r | constructor].
  - destruct (f it) as [d | e] eqn:Hf; [| discriminate].
    intros Hout. apply IH in Hout as (es & -> & Hall).
    exists (d :: es). split; [now rewrite <- app_assoc | now constructor].
Qed.

(** What [append_each] raises is what one of the items raised. *)
Lemma append_each_raised (f : item -> outcome json) items : forall acc e,
  append_each f acc items = Raised e -> exists it, In it items /\ f it = Raised e.
Proof.
  induction items as [| it rest IH]; intros acc e; cbn; [discriminate |].
  destruct (f it) as [d | e'] eqn:Hf.
  - intros Hout. apply IH in Hout as (it' & Hin & Hit). eauto.
  - intros [= <-]. eauto.
Qed.

(** Building a show raises only [KeyError], for an attribute the item lacks. *)
Lemma show_of_raised it e :
  show_of it = Raised e ->
  exists k, e = KeyError k /\ it !! k = None /\ In k ["tv_show"; "season"; "episode"].
Proof.
  unfold show_of, getitem.
  destruct (it !! "tv_show") eqn:H1; cbn; [| intros [= <-]; exists "tv_show"; repeat split; cbn; auto 6].
  destruct (it !! "season") eqn:H2; cbn; [| intros [= <-]; exists "season"; repeat split; cbn; auto 6].
  destruct (it !! "episode") eqn:H3; cbn; [| intros [= <-]; exists "episode"; repeat split; cbn; auto 6].
  discriminate.
Qed.

Lemma entry_of_raised it e :
  entry_of it = Raised e ->
  exists k, e = KeyError k /\ it !! k = None
            /\ In k ["username"; "tv_show"; "season"; "episode"].
Proof.
  unfold entry_of, getitem.
  destruct (it !! "username") eqn:H0; cbn; [| intros [= <-]; exists "username"; repeat split; cbn; auto 6].
  destruct (it !! "tv_show") eqn:H1; cbn; [| intros [= <-]; exists "tv_show"; repeat split; cbn; auto 6].
  destruct (it !! "season") eqn:H2; cbn; [| intros [= <-]; exists "season"; repeat split; cbn; auto 6].
  destruct (it !! "episode") eqn:H3; cbn; [| intros [= <-]; exists "episode"; repeat split; cbn; auto 6].
  discriminate.
Qed.

(** The three ways [show_user] ends. *)
Lemma show_user_cases req (s : env T) :
  let username := args_get req "username" in
  (falsy username = true
   /\ exists tr,
       show_user req s
       = Some (Returned (Tuple [jsonify [("error", JStr "Username is required")]; JInt 400]),
               s, tr))
  \/ (falsy username = false
      /\ exists items shows tr,
          query (table s) (opt_str username) = Returned items
          /\ append_each show_of [] items = Returned shows
          /\ show_user req s
             = Some (Returned (Plain (jsonify [("username", opt_str username);
                                               ("shows", JArr shows);
                                               ("total_shows", len shows)])), s, tr))
  \/ (falsy username = false
      /\ exists e record,
          (query (table s) (opt_str username) = Raised e
           \/ exists items, query (table s) (opt_str username) = Returned items
                            /\ append_each show_of [] items = Raised e)
          /\ show_user req s
             = Some (Returned (Tuple [if isinstance e "ClientError" then database_error_body
                                      else internal_error_body; JInt 500]), s, [record])).
Proof.
  intros username. unfold show_user. fold username.
  destruct (falsy username) eqn:Harg.
  { left. split; [reflexivity |]. eexists. reflexivity. }
  right. unfold try_except, bind, table_query. cbn -[db_errors].
  destruct (query (table s) _) as [items | e] eqn:Hq; cbn -[db_errors].
  - destruct (append_each show_of [] items) as [shows | e] eqn:Happ; cbn -[db_errors].
    + left. split; [reflexivity |]. exists items, shows. eexists. auto.
    + right. split; [reflexivity |].
      destruct (db_errors_answer "show_user" e s) as [record ->].
      exists e, record. split; [right; eauto | reflexivity].
  - right. split; [reflexivity |].
    destruct (db_errors_answer "show_user" e s) as [record ->].
    exists e, record. split; [now left | reflexivity].
Qed.

(** X3: [show_user] answers every request, with 200, 400 or 500, and leaves the
    table and the clock as they were. *)
Theorem show_user_always_answers req (s : env T) :
  exists r tr,
    show_user req s = Some (Returned r, s, tr)
    /\ In (flask_status r) [Some (JInt 200); Some (JInt 400); Some (JInt 500)].
Proof.
  pose proof (show_user_cases req s) as Hcases. cbv zeta in Hcases.
  destruct Hcases as [(_ & tr & ->) | [(_ & items & shows & tr & _ & _ & ->)
                                      | (_ & e & record & _ & ->)]];
    eexists _, _; (split; [reflexivity | cbn; auto]).
Qed.

(** X4: For a username that is given, [show_user] answers 200 with the list
    [shows] exactly when the query returns items of which [shows] are the
    images, one for each item and in the order of the items. *)
Theorem show_user_lists_the_query_items req (s : env T) username shows :
  args_get req "username" = Some username ->
  username <> "" ->
  (exists tr,
      show_user req s
      = Some (Returned (Plain (jsonify [("username", JStr username); ("shows", JArr shows);
                                        ("total_shows", len shows)])), s, tr))
  <-> (exists items,
          query (table s) (JStr username) = Returned items
          /\ Forall2 (fun it show => show_of it = Returned show) items shows).
Proof.
  intros Harg Hne.
  pose proof (show_user_cases req s) as Hcases. cbv zeta in Hcases.
  rewrite Harg, (falsy_nonempty _ Hne) in Hcases. cbn in Hcases.
  destruct Hcases as [(? & _) | [(_ & items & shows' & tr & Hq & Happ & Heq)
                                 | (_ & e & record & Hwhy & Heq)]];
    [discriminate | |].
  - apply append_each_returned in Happ as (es & -> & Hall). cbn in Heq.
    split.
    + intros (tr' & Heq'). rewrite Heq in Heq'. injection Heq' as <- _. eauto.
    + intros (items' & Hq' & Hall'). rewrite Hq in Hq'. injection Hq' as <-.
      assert (es = shows) as ->.
      { clear - Hall Hall'. revert shows Hall'.
        induction Hall as [| it e items es He Hall IH]; intros shows Hall';
          inversion Hall'; subst; [reflexivity |].
        f_equal; [congruence | auto]. }
      eauto.
  - split.
    + intros (tr' & Heq'). rewrite Heq in Heq'. discriminate.
    + intros (items & Hq & Hall).
      destruct Hwhy as [Hq' | (items' & Hq' & Happ)]; rewrite Hq in Hq'; [discriminate |].
      injection Hq' as <-.
      rewrite (append_each_all _ _ [] _ Hall) in Happ. discriminate.
Qed.

Lemma Forall2_In_left {A B} (P : A -> B -> Prop) l l' x :
  Forall2 P l l' -> In x l -> exists y, P x y.
Proof.
  induction 1 as [| a b l l' Hab Hall IH]; cbn; [contradiction |].
  intros [<- | Hin]; eauto.
Qed.

Lemma show_of_returned it d k :
  show_of it = Returned d -> In k ["tv_show"; "season"; "episode"] -> it !! k <> None.
Proof.
  unfold show_of, getitem.
  destruct (it !! "tv_show") eqn:H1; cbn; [| discriminate].
  destruct (it !! "season") eqn:H2; cbn; [| discriminate].
  destruct (it !! "episode") eqn:H3; cbn; [| discriminate].
  intros _ [<- | [<- | [<- | []]]]; congruence.
Qed.

Lemma entry_of_returned it d k :
  entry_of it = Returned d -> In k ["username"; "tv_show"; "season"; "episode"] ->
  it !! k <> None.
Proof.
  unfold entry_of, getitem.
  destruct (it !! "username") eqn:H0; cbn; [| discriminate].
  destruct (it !! "tv_show") eqn:H1; cbn; [| discriminate].
  destruct (it !! "season") eqn:H2; cbn; [| discriminate].
  destruct (it !! "episode") eqn:H3; cbn; [| discriminate].
  intros _ [<- | [<- | [<- | [<- | []]]]]; congruence.
Qed.

(** X5: An item of the query result that lacks an attribute the view reads makes
    [show_user] answer 500 with the body of an internal error. *)
Theorem show_user_item_lacking_attribute req (s : env T) username items it k :
  args_get req "username" = Some username ->
  username <> "" ->
  query (table s) (JStr username) = Returned items ->
  In it items -> In k ["tv_show"; "season"; "episode"] -> it !! k = None ->
  exists tr,
    show_user req s = Some (Returned (Tuple [internal_error_body; JInt 500]), s, tr).
Proof.
  intros Harg Hne Hq Hin Hk Hnone.
  pose proof (show_user_cases req s) as Hcases. cbv zeta in Hcases.
  rewrite Harg, (falsy_nonempty _ Hne) in Hcases. cbn -[In] in Hcases.
  destruct Hcases as [(? & _) | [(_ & items' & shows & tr & Hq' & Happ & _)
                                 | (_ & e & record & Hwhy & Heq)]];
    [discriminate | |].
  - exfalso. rewrite Hq in Hq'. injection Hq' as <-.
    apply append_each_returned in Happ as (es & _ & Hall).
    destruct (Forall2_In_left _ _ _ _ Hall Hin) as [d Hd].
    exact (show_of_returned _ _ _ Hd Hk Hnone).
  - destruct Hwhy as [Hq' | (items' & Hq' & Happ)]; rewrite Hq in Hq'; [discriminate |].
    apply append_each_raised in Happ as (it' & _ & Hit').
    apply show_of_raised in Hit' as (k' & -> & _).
    exists [record]. exact Heq.
Qed.

(** The loop of [show_all] leaves the table and the clock as they were and
    logs nothing. *)
Lemma scan_rest_state fuel : forall p acc (s : env T) o s' tr,
  scan_rest fuel p acc s = Some (o, s', tr) -> s' = s /\ tr = [].
Proof.
  induction fuel as [| fuel IH]; intros p acc s o s' tr; cbn.
  - destruct (LastEvaluatedKey p); [discriminate | intros [= _ <- <-]; auto].
  - destruct (LastEvaluatedKey p) as [key |]; [| intros [= _ <- <-]; auto].
    unfold bind, table_scan, lift_outcome.
    destruct (scan (table s) (Some key)) as [p' | e]; cbn; [| intros [= _ <- <-]; auto].
    destruct (append_each entry_of acc (Items p')) as [acc' | e]; cbn;
      [| intros [= _ <- <-]; auto].
    destruct (scan_rest fuel p' acc' s) as [[[o2 s2] tr2] |] eqn:Hrest; [| discriminate].
    apply IH in Hrest as [-> ->]. intros [= _ <- <-]. auto.
Qed.

(** X6: [show_all], when it ends, answers 200 or 500 and leaves the table and the
    clock as they were; it raises nothing. *)
Theorem show_all_answers_or_runs_on fuel req (s : env T) :
  show_all fuel req s = None
  \/ exists r tr,
      show_all fuel req s = Some (Returned r, s, tr)
      /\ In (flask_status r) [Some (JInt 200); Some (JInt 500)].
Proof.
  unfold show_all, try_except.
  destruct (bind (table_scan None) _ s) as [[[[r | e] s1] tr1] |] eqn:Hbody; [| | now left].
  - right. revert Hbody. unfold bind, table_scan, lift_outcome. cbn.
    destruct (scan (table s) None) as [p | e]; [| discriminate]. cbn.
    destruct (append_each entry_of [] (Items p)) as [es0 | e]; [| discriminate]. cbn.
    destruct (scan_rest fuel p es0 s) as [[[[es | e] s2] tr2] |] eqn:Hrest;
      [| discriminate ..].
    apply scan_rest_state in Hrest as [-> ->]. cbn. intros [= <- <- <-].
    eexists _, _. split; [reflexivity | cbn; auto].
  - right.
    assert (s1 = s) as ->.
    { revert Hbody. unfold bind, table_scan, lift_outcome. cbn.
      destruct (scan (table s) None) as [p | e0]; cbn; [| now intros [= _ <- _]].
      destruct (append_each entry_of [] (Items p)) as [es0 | e0]; cbn;
        [| now intros [= _ <- _]].
      destruct (scan_rest fuel p es0 s) as [[[[es | e0] s2] tr2] |] eqn:Hrest;
        [discriminate | | discriminate].
      apply scan_rest_state in Hrest as [-> ->]. now intros [= _ <- _]. }
    destruct (db_errors_answer "show_all" e s) as [record ->].
    eexists _, _. split; [reflexivity | cbn; auto].
Qed.

Lemma append_each_defined (f : item -> outcome json) items : forall acc,
  Forall (fun it => exists e, f it = Returned e) items ->
  exists out, append_each f acc items = Returned out.
Proof.
  induction items as [| it rest IH]; intros acc Hall; cbn; [eauto |].
  inversion Hall as [| ? ? [e He] Hrest]; subst. rewrite He. now apply IH.
Qed.

(** X7: On a store whose every scan hands out a marker with its page,
    [show_all] does not end: no number of iterations is enough. *)
Theorem show_all_runs_on_while_markers_come req (s : env T) :
  (forall start, exists p key,
      scan (table s) start = Returned p /\ LastEvaluatedKey p = Some key
      /\ Forall (fun it => exists e, entry_of it = Returned e) (Items p)) ->
  forall fuel, show_all fuel req s = None.
Proof.
  intros Hscan fuel.
  assert (Hloop : forall fuel p acc key,
             LastEvaluatedKey p = Some key -> scan_rest fuel p acc s = None).
  { clear fuel. induction fuel as [| fuel IH]; intros p acc key Hp; cbn; rewrite Hp;
      [reflexivity |].
    destruct (Hscan (Some key)) as (p' & key' & Hs & Hp' & Hitems).
    unfold bind, table_scan, lift_outcome. rewrite Hs. cbn.
    destruct (append_each_defined entry_of _ acc Hitems) as [acc' ->]. cbn.
    now rewrite (IH p' acc' key' Hp'). }
  destruct (Hscan None) as (p & key & Hs & Hp & Hitems).
  unfold show_all, try_except, bind, table_scan, lift_outcome. rewrite Hs. cbn.
  destruct (append_each_defined entry_of _ [] Hitems) as [acc ->]. cbn.
  now rewrite (Hloop fuel p acc key Hp).
Qed.


(** X11: When [update_episode] raises, it has written nothing and logged
    nothing, and the clock has not been read. *)
Theorem update_episode_raises_before_any_effect req (s s' : env T) e tr :
  update_episode isoformat req s = Some (Raised e, s', tr) -> s' = s /\ tr = [].
Proof.
  unfold update_episode, bind, lift_outcome.
  destruct (req_json req) as [data | e0]; [| now intros [= _ <- <-]].
  destruct (negb (truthy data)); cbn -[truthy]; [discriminate |].
  destruct (dict_get data "username") as [username | e0]; [| now intros [= _ <- <-]].
  destruct (dict_get data "tv_show") as [tv_show | e0]; [| now intros [= _ <- <-]].
  destruct (dict_get data "season") as [season | e0]; [| now intros [= _ <- <-]].
  destruct (dict_get data "episode") as [episode | e0]; [| now intros [= _ <- <-]].
  cbn -[truthy].
  destruct (negb _); cbn -[truthy]; [discriminate |].
  rewrite !rewrap.
  assert (Hinvalid : forall a b e0,
             invalid_format (T := T) a b e0 s = Some (Raised e, s', tr) ->
             s' = s /\ tr = []).
  { intros a b e0. unfold invalid_format.
    destruct (_ || _); cbn; [discriminate | now intros [= _ <- <-]]. }
  destruct (py_int season) as [se | e0]; [| now eauto].
  destruct (py_int episode) as [ep | e0]; [| now eauto].
  destruct (_ || _); cbn; [discriminate |].
  unfold try_except, table_put_item. cbn.
  destruct (put_item (table s) _) as [t' | e0]; cbn; [discriminate |].
  destruct (db_errors_answer "update_episode" e0 (Env (table s) (tick (clk s))))
    as [record ->].
  discriminate.
Qed.

(** X12: A 500 of any of the four views carries one of two fixed bodies: the text
    of the exception is in neither. *)
Theorem views_500_bodies_are_fixed fuel req :
  Forall (fun view : M (env T) retval =>
            forall s s' r tr,
              view s = Some (Returned r, s', tr) ->
              flask_status r = Some (JInt 500) ->
              r = Tuple [database_error_body; JInt 500]
              \/ r = Tuple [internal_error_body; JInt 500])
         (views isoformat fuel req).
Proof.
  unfold views.
  constructor; [| constructor; [| constructor; [| constructor; [| constructor]]]].
  - intros s s' r tr Hrun Hst.
    pose proof (show_episode_cases req s) as Hcases. cbv zeta in Hcases.
    destruct Hcases
      as [(_ & tr0 & Heq) | [(_ & _ & tr0 & Heq)
          | [(_ & it & u & sh & se & ep & tr0 & _ & _ & _ & _ & _ & Heq)
            | (_ & _ & body & tr0 & Hbody & Heq)]]];
      rewrite Heq in Hrun; injection Hrun as <- _ _; try discriminate.
    destruct Hbody as [-> | ->]; auto.
  - intros s s' r tr Hrun Hst.
    pose proof (show_user_cases req s) as Hcases. cbv zeta in Hcases.
    destruct Hcases as [(_ & tr0 & Heq) | [(_ & items & shows & tr0 & _ & _ & Heq)
                                          | (_ & e & record & _ & Heq)]];
      rewrite Heq in Hrun; injection Hrun as <- _ _; try discriminate.
    destruct (isinstance e "ClientError"); auto.
  - intros s s' r tr. unfold update_episode, bind, lift_outcome.
    destruct (req_json req) as [data | e]; [| discriminate].
    destruct (negb (truthy data)); cbn -[truthy].
    { intros [= <- _ _]. discriminate. }
    destruct (dict_get data "username") as [username | e]; [| discriminate].
    destruct (dict_get data "tv_show") as [tv_show | e]; [| discriminate].
    destruct (dict_get data "season") as [season | e]; [| discriminate].
    destruct (dict_get data "episode") as [episode | e]; [| discriminate].
    cbn -[truthy].
    destruct (negb _); cbn -[truthy].
    { intros [= <- _ _]. discriminate. }
    rewrite !rewrap.
    assert (Hinvalid : forall a b e,
               invalid_format (T := T) a b e s = Some (Returned r, s', tr) ->
               flask_status r <> Some (JInt 500)).
    { intros a b e. unfold invalid_format.
      destruct (_ || _); cbn; [intros [= <- _ _]; discriminate | discriminate]. }
    destruct (py_int season) as [se | e]; [| intros H1 H2; now apply Hinvalid in H1].
    destruct (py_int episode) as [ep | e]; [| intros H1 H2; now apply Hinvalid in H1].
    destruct (_ || _); cbn.
    { intros [= <- _ _]. discriminate. }
    unfold try_except, table_put_item. cbn.
    destruct (put_item (table s) _) as [t' | e]; cbn.
    + intros [= <- _ _]. discriminate.
    + destruct (db_errors_answer "update_episode" e (Env (table s) (tick (clk s))))
        as [record ->].
      intros [= <- _ _] _. destruct (isinstance e "ClientError"); auto.
  - intros s s' r tr. unfold show_all, try_except.
    destruct (bind (table_scan None) _ s) as [[[[r0 | e] s1] tr1] |] eqn:Hbody;
      [| | discriminate].
    + intros [= <- _ _]. revert Hbody. unfold bind, table_scan, lift_outcome. cbn.
      destruct (scan (table s) None) as [p | e]; [| discriminate]. cbn.
      destruct (append_each entry_of [] (Items p)) as [es0 | e]; [| discriminate]. cbn.
      destruct (scan_rest fuel p es0 s) as [[[[es | e] s2] tr2] |]; [| discriminate ..].
      cbn. intros [= <- _ _]. discriminate.
    + destruct (db_errors_answer "show_all" e s1) as [record ->].
      intros [= <- _ _] _. destruct (isinstance e "ClientError"); auto.
Qed.

End ViewCases.


(** ** The wrappers, further *)

Section WrapperCases.
Context {T : Type} {ops : TableOps T}.
Variable isoformat : Z -> string.

Lemma reading_later (n : nat) (w : world T) : reading n w <= reading (S n) w.
Proof. unfold reading. cbn. apply tick_later. Qed.

(** X13: [log_database_operation] hands on what the wrapped function gives, a
    value or the exception it raised, between a start record and a success
    or error record; besides that it only reads the clock. *)
Theorem log_database_operation_brackets {A} operation_type func_name
    (func : M (world T) A) (w : world T) :
  match func (after_reads 2 w) with
  | None => log_database_operation isoformat operation_type func_name func w = None
  | Some (o, w1, tr) =>
      log_database_operation isoformat operation_type func_name func w
      = Some (o, after_reads 2 w1,
              db_start_event isoformat operation_type func_name w
              :: tr ++ [db_end_event isoformat operation_type func_name w w1 o])
  end.
Proof.
  unfold log_database_operation, try_except, bind. cbn.
  change (World (Env (table (w_env w)) (tick (tick (clk (w_env w))))) (g w) (cloudwatch w))
    with (after_reads 2 w).
  destruct (func (after_reads 2 w)) as [[[[a | e] w1] tr] |]; reflexivity.
Qed.

(** X14: Without [log_api_call] around it, [track_metrics] files the sample
    under the route and method "unknown" and measures from a reading of the
    clock it makes itself: the duration is not negative. *)
Theorem track_metrics_without_context func (w w1 : world T) r tr1 sc :
  func w = Some (Returned r, w1, tr1) ->
  tuple_status r = Some sc ->
  g w1 = G None None None ->
  exists duration record,
    0 <= duration
    /\ track_metrics func w
       = Some (Returned r, after_reads 3 w1,
               tr1 ++ [PutMetricData "TVShowTracker/API"
                         (metric_data_of "unknown" "unknown" sc duration true None
                            (reading 3 w1));
                       record]).
Proof.
  intros Hf Hs Hg.
  rewrite (track_metrics_returned _ _ _ _ _ _ Hf Hs).
  unfold tracked, sample_data. rewrite Hg. cbn -[metric_data_of reading].
  eexists _, _. split; [| reflexivity].
  pose proof (reading_later 1 w1). lia.
Qed.


(** X16: A result that is a tuple of fewer than two elements does not come out
    of the wrappers: both fail on its status, the sample is the one of a
    failure and [IndexError] is raised in place of the result. *)
Theorem short_tuple_becomes_index_error req func (w w1 : world T) elems trH :
  func (entered req w) = Some (Returned (Tuple elems), w1, trH) ->
  (length elems < 2)%nat ->
  let e := IndexError "tuple index out of range" in
  instrumented isoformat req func w
  = Some (Raised e, after_reads 7 w1,
          start_event isoformat req w
          :: (trH ++ tracked 2 w1 (JInt 500) false (Some "IndexError"))
          ++ [error_event isoformat req w (after_reads 5 w1) 0 e]).
Proof.
  intros Hf Hlen e.
  assert (Hs : tuple_status (Tuple elems) = None).
  { cbn. apply lookup_ge_None. lia. }
  pose proof (track_metrics_short_tuple _ _ _ _ _ Hf Hs) as Ht.
  unfold instrumented. now rewrite (log_api_call_raised _ _ _ _ _ _ _ Ht).
Qed.

(** X17: The wrappers do not touch the table: the wrapped function runs on the
    table the request came to, and what it leaves of the table and of
    [flask.g] is what the wrappers leave. *)
Theorem wrappers_leave_the_table req func (w : world T) :
  table (w_env (entered req w)) = table (w_env w)
  /\ match func (entered req w) with
     | None => instrumented isoformat req func w = None
     | Some (_, w1, _) =>
         exists o w' tr,
           instrumented isoformat req func w = Some (o, w', tr)
           /\ table (w_env w') = table (w_env w1) /\ g w' = g w1
     end.
Proof.
  split; [reflexivity |]. unfold instrumented.
  destruct (func (entered req w)) as [[[[r | e] w1] trH] |] eqn:Hf.
  - destruct (tuple_status r) as [sc |] eqn:Hs.
    + pose proof (track_metrics_returned _ _ _ _ _ _ Hf Hs) as Ht.
      rewrite (log_api_call_returned _ _ _ _ _ _ _ _ Ht Hs). eexists _, _, _. eauto.
    + pose proof (track_metrics_short_tuple _ _ _ _ _ Hf Hs) as Ht.
      rewrite (log_api_call_raised _ _ _ _ _ _ _ Ht). eexists _, _, _. eauto.
  - pose proof (track_metrics_raised _ _ _ _ _ Hf) as Ht.
    rewrite (log_api_call_raised _ _ _ _ _ _ _ Ht). eexists _, _, _. eauto.
  - apply log_api_call_diverges. now apply track_metrics_diverges.
Qed.

End WrapperCases.

(** ** The setup script *)

Section SetupRuns.
Context {T : Type} {ops : TableOps T}.

Lemma put_each_step (it : item) items (c : console T) u sh t1 :
  put_item (c_table c) it = Returned t1 ->
  it !! "username" = Some u -> it !! "tv_show" = Some sh ->
  put_each (it :: items) c
  = put_each items (Console t1 (c_out c ++ [AddedSampleData u sh])).
Proof.
  intros Hput Hu Hsh. cbn [put_each].
  unfold bind, console_put_item, lift_outcome, getitem, print, modify.
  rewrite Hput, Hu, Hsh. cbn.
  now destruct (put_each items _) as [[[o c2] tr2] |].
Qed.

Lemma put_each_refused (it : item) items (c : console T) e :
  put_item (c_table c) it = Raised e ->
  put_each (it :: items) c = Some (Raised e, c, []).
Proof.
  intros Hput. cbn [put_each]. unfold bind, console_put_item. now rewrite Hput.
Qed.

(** The loop puts the items in order and stops at the first put the store
    refuses: the items before it are in the table, with a line printed for
    each, and no later item is put. *)
Lemma put_each_all_or_a_prefix (items : list item) :
  Forall (fun it => is_Some (it !! "username") /\ is_Some (it !! "tv_show")) items ->
  forall c : console T,
    (exists t',
        puts (c_table c) items t'
        /\ put_each items c
           = Some (Returned tt, Console t' (c_out c ++ map added_line items), []))
    \/ (exists done_ it rest t' e,
           items = done_ ++ it :: rest
           /\ puts (c_table c) done_ t'
           /\ put_item t' it = Raised e
           /\ put_each items c
              = Some (Raised e, Console t' (c_out c ++ map added_line done_), [])).
Proof.
  induction 1 as [| it items [[u Hu] [sh Hsh]] Hall IH]; intros c.
  - left. exists (c_table c). split; [constructor |].
    cbn. rewrite app_nil_r. now destruct c.
  - assert (Hline : added_line it = AddedSampleData u sh)
      by (unfold added_line; now rewrite Hu, Hsh).
    destruct (put_item (c_table c) it) as [t1 | e] eqn:Hput.
    + rewrite (put_each_step _ _ _ _ _ _ Hput Hu Hsh).
      destruct (IH (Console t1 (c_out c ++ [AddedSampleData u sh])))
        as [(t' & Hputs & ->) | (done_ & it' & rest & t' & e & -> & Hputs & Hbad & ->)];
        cbn [c_table c_out] in *.
      * left. exists t'. split; [econstructor; eauto |].
        cbn [map]. now rewrite Hline, <- app_assoc.
      * right. exists (it :: done_), it', rest, t', e.
        split; [reflexivity | split; [econstructor; eauto | split; [exact Hbad |]]].
        cbn [map]. now rewrite Hline, <- app_assoc.
    + right. exists [], it, items, (c_table c), e.
      split; [reflexivity | split; [constructor | split; [exact Hput |]]].
      rewrite (put_each_refused _ _ _ _ Hput). cbn. rewrite app_nil_r. now destruct c.
Qed.

Lemma setup_sample_data_keys :
  Forall (fun it : item => is_Some (it !! "username") /\ is_Some (it !! "tv_show"))
         setup_sample_data.
Proof. repeat constructor; now eexists. Qed.


End SetupRuns.

(** ** The further theorems at sample requests *)

Lemma show_episode_status_tells_case_witness :
  let req := get_view "api.show_episode"
               [("username", "john_doe"); ("tv_show", "Breaking Bad")] in
  exists r tr,
    show_episode req sample_env = Some (Returned r, sample_env, tr)
    /\ flask_status r = Some (JInt 200)
    /\ (flask_status r = Some (JInt 404)
        <-> falsy (args_get req "username") || falsy (args_get req "tv_show") = false
            /\ get_item (table sample_env) (opt_str (args_get req "username"))
                 (opt_str (args_get req "tv_show")) = Returned None).
Proof.
  intros req. eexists _, _.
  assert (Hrun : show_episode req sample_env = Some (Returned _, sample_env, _))
    by (vm_compute; reflexivity).
  split; [exact Hrun | split; [reflexivity |]].
  exact (proj1 (proj2 (show_episode_status_tells_case req sample_env sample_env _ _ Hrun))).
Defined.

Lemma show_user_lists_the_query_items_witness :
  let req := get_view "api.show_user" [("username", "jane_smith")] in
  let show := JObj [("tv_show", JStr "Stranger Things"); ("season", JInt 4);
                    ("episode", JInt 3); ("last_updated", JStr "2024-01-16T14:45:00Z")] in
  "jane_smith" <> ""
  /\ ((exists tr,
          show_user req sample_env
          = Some (Returned (Plain (jsonify [("username", JStr "jane_smith");
                                            ("shows", JArr [show]);
                                            ("total_shows", len [show])])), sample_env, tr))
      <-> (exists items,
              query (table sample_env) (JStr "jane_smith") = Returned items
              /\ Forall2 (fun it sh => show_of it = Returned sh) items [show])).
Proof.
  intros req show.
  assert (Hne : "jane_smith" <> "") by discriminate.
  split; [exact Hne |].
  exact (show_user_lists_the_query_items req sample_env "jane_smith" [show] eq_refl Hne).
Defined.

Lemma show_user_item_lacking_attribute_witness :
  let req := get_view "api.show_user" [("username", "jane_smith")] in
  exists items,
    query (table patchy_env) (JStr "jane_smith") = Returned items
    /\ In patchy_row items /\ patchy_row !! "season" = None
    /\ exists tr,
        show_user req patchy_env
        = Some (Returned (Tuple [internal_error_body; JInt 500]), patchy_env, tr).
Proof.
  intros req.
  assert (Hne : "jane_smith" <> "") by discriminate.
  assert (Hk : In "season" ["tv_show"; "season"; "episode"]) by (cbn; auto).
  eexists.
  assert (Hq : query (table patchy_env) (JStr "jane_smith") = Returned _)
    by (vm_compute; reflexivity).
  match type of Hq with
  | _ = Returned ?l => assert (Hin : In patchy_row l) by (vm_compute; auto)
  end.
  assert (Hnone : patchy_row !! "season" = None) by (vm_compute; reflexivity).
  split; [exact Hq | split; [exact Hin | split; [exact Hnone |]]].
  exact (show_user_item_lacking_attribute req patchy_env "jane_smith" _ patchy_row "season"
           eq_refl Hne Hq Hin Hk Hnone).
Defined.

Lemma show_all_runs_on_while_markers_come_witness :
  (forall start, exists p key,
      scan (table endless_env) start = Returned p /\ LastEvaluatedKey p = Some key
      /\ Forall (fun it => exists e, entry_of it = Returned e) (Items p))
  /\ forall fuel, show_all fuel (get_view "api.show_all" []) endless_env = None.
Proof.
  assert (Hscan : forall start, exists p key,
             scan (table endless_env) start = Returned p /\ LastEvaluatedKey p = Some key
             /\ Forall (fun it => exists e, entry_of it = Returned e) (Items p)).
  { intros start. exists (Page [] (Some (JInt 0))), (JInt 0).
    split; [reflexivity | split; [reflexivity | constructor]]. }
  split; [exact Hscan |].
  exact (show_all_runs_on_while_markers_come (get_view "api.show_all" []) endless_env Hscan).
Defined.

Lemma update_episode_400_writes_nothing_witness :
  let req := post_update (update_body (JStr "john_doe") (JStr "Breaking Bad")
                            (JInt 3) (JInt (-1))) in
  exists r s' tr,
    update_episode stamp req sample_env = Some (Returned r, s', tr)
    /\ flask_status r = Some (JInt 400)
    /\ s' = sample_env.
Proof.
  intros req. eexists _, _, _.
  assert (Hrun : update_episode stamp req sample_env = Some (Returned _, _, _))
    by (vm_compute; reflexivity).
  split; [exact Hrun | split; [reflexivity |]].
  exact (update_episode_400_writes_nothing stamp req sample_env _ _ _ Hrun eq_refl).
Defined.



Lemma update_episode_raises_before_any_effect_witness :
  let req := post_update (JArr [JInt 1]) in
  exists e s' tr,
    update_episode stamp req sample_env = Some (Raised e, s', tr)
    /\ exn_name e = "AttributeError"
    /\ s' = sample_env /\ tr = [].
Proof.
  intros req. eexists _, _, _.
  assert (Hrun : update_episode stamp req sample_env = Some (Raised _, _, _))
    by reflexivity.
  split; [exact Hrun | split; [reflexivity |]].
  exact (update_episode_raises_before_any_effect stamp req sample_env _ _ _ Hrun).
Defined.

Lemma views_500_bodies_are_fixed_witness :
  let req := post_update (update_body (JInt 5) (JStr "Dark") (JInt 1) (JInt 2)) in
  exists r s' tr,
    update_episode stamp req sample_env = Some (Returned r, s', tr)
    /\ flask_status r = Some (JInt 500)
    /\ (r = Tuple [database_error_body; JInt 500]
        \/ r = Tuple [internal_error_body; JInt 500]).
Proof.
  intros req. eexists _, _, _.
  assert (Hrun : update_episode stamp req sample_env = Some (Returned _, _, _))
    by (vm_compute; reflexivity).
  split; [exact Hrun | split; [reflexivity |]].
  pose proof (views_500_bodies_are_fixed (T := mem_table) stamp 0 req) as Hall.
  unfold views in Hall.
  exact (Forall_inv (Forall_inv_tail (Forall_inv_tail Hall)) sample_env _ _ _ Hrun eq_refl).
Defined.

Lemma track_metrics_without_context_witness :
  let req := get_view "api.show_user" [("username", "jane_smith")] in
  let func := in_env (show_user req) in
  exists r w1 tr1,
    func sample_world = Some (Returned r, w1, tr1)
    /\ tuple_status r = Some (JInt 200)
    /\ g w1 = G None None None
    /\ exists duration record,
        0 <= duration
        /\ track_metrics func sample_world
           = Some (Returned r, after_reads 3 w1,
                   tr1 ++ [PutMetricData "TVShowTracker/API"
                             (metric_data_of "unknown" "unknown" (JInt 200) duration true None
                                (reading 3 w1));
                           record]).
Proof.
  intros req func. eexists _, _, _.
  assert (Hf : func sample_world = Some (Returned _, _, _)) by (vm_compute; reflexivity).
  split; [exact Hf | split; [reflexivity | split; [reflexivity |]]].
  exact (track_metrics_without_context func sample_world _ _ _ (JInt 200) Hf eq_refl eq_refl).
Defined.


Lemma short_tuple_becomes_index_error_witness :
  let req := get_view "api.show_all" [] in
  let func : M (world mem_table) retval := ret (Tuple [JObj []]) in
  let w1 := entered req sample_world in
  let e := IndexError "tuple index out of range" in
  (length [JObj []] < 2)%nat
  /\ instrumented stamp req func sample_world
     = Some (Raised e, after_reads 7 w1,
             start_event stamp req sample_world
             :: ([] ++ tracked 2 w1 (JInt 500) false (Some "IndexError"))
             ++ [error_event stamp req sample_world (after_reads 5 w1) 0 e]).
Proof.
  intros req func w1 e.
  assert (Hlen : (length [JObj []] < 2)%nat) by (cbn; lia).
  split; [exact Hlen |].
  exact (short_tuple_becomes_index_error stamp req func sample_world w1 [JObj []] []
           eq_refl Hlen).
Defined.

(** Run on an empty in-memory table, the script leaves the rows of the
    sample table. *)
Example add_sample_data_fills_the_sample_table :
  option_map (fun x => rows (c_table (snd (fst x))))
    (add_sample_data (Console (MemTable ∅ 0) []))
  = Some (rows sample_table).
Proof. vm_compute. reflexivity. Qed.
